(** * KLEE feature extraction, classifier training and demonstration: a
    verified model

    A shallow embedding of [scripts/extract_klee_features.py],
    [scripts/train_model.py] and [scripts/automate_klee_execution.py].

    - Python [str] values are [string]s whose characters are code points
      below 256; the helpers of module [Py] follow CPython's [str] methods
      and [pathlib.PurePosixPath] (CPython 3.8 to 3.13).
    - The file system, the SQLite stores and the warning logs are explicit
      observations ([FileSystem]); every library call that can raise is a
      [result], inside a [try] block or not. In CPython 3.8 to 3.13
      [Path.exists] and [Path.is_dir] raise every [OSError] that does not
      say that the path is missing, so they are [result]s too.
    - Code that assigns locals or mutates the [stats] dict inside a [try]
      block runs in a small state-and-exception monad, so that what an
      [except] clause sees after a failure is what the code left behind.
    - scikit-learn is a parameter ([Sklearn]): each of its calls may raise,
      and what the documentation promises of the stratified split is stated
      separately ([respects_contract]).
    - Calls to [logging] have no influence on any returned or written value
      and are left out. *)

From Stdlib Require Import String Ascii ZArith List Lia Sorting.Sorted.
From Stdlib Require Import DecimalString DecimalNat.
From stdpp Require Import base option list sorting gmap strings.
Import ListNotations.

Open Scope string_scope.
Open Scope Z_scope.

(** ** Exceptions and results *)

Inductive exn : Type :=
  | FileNotFoundError (path : string)
  | KeyError (key : string)
  | IndexError
  | NotADirectoryError (path : string)
  | PermissionError (path : string)
  | OSError
  | DatabaseError
  | ValueError
  | UnicodeEncodeError.

Inductive result (A : Type) : Type :=
  | Ok (a : A)
  | Raise (e : exn).
Arguments Ok {A} a.
Arguments Raise {A} e.

(** A computation over local state [S] that returns or raises; the state
    reached at the point of failure is kept, as for Python locals. *)
Definition M (S A : Type) : Type := S -> result A * S.

Definition ret {S A} (a : A) : M S A := fun s => (Ok a, s).

Definition bind {S A B} (m : M S A) (f : A -> M S B) : M S B :=
  fun s => match m s with
           | (Ok a, s') => f a s'
           | (Raise e, s') => (Raise e, s')
           end.

Definition lift {S A} (r : result A) : M S A := fun s => (r, s).

Definition modify {S} (f : S -> S) : M S unit := fun s => (Ok tt, f s).

(** [try: m except Exception: pass] (the handlers of the source only log). *)
Definition try_except {S} (m : M S unit) : M S unit :=
  fun s => match m s with
           | (Ok u, s') => (Ok u, s')
           | (Raise _, s') => (Ok tt, s')
           end.

Notation "'do' x <- m ; k" := (bind m (fun x => k))
  (at level 10, x name, m at level 100, k at level 200).
Notation "'exec' m ; k" := (bind m (fun _ => k))
  (at level 10, m at level 100, k at level 200).

(** [for x in xs: body x] *)
Fixpoint for_each {S A} (xs : list A) (body : A -> M S unit) : M S unit :=
  match xs with
  | [] => ret tt
  | x :: xs' => exec body x; for_each xs' body
  end.

(** The same in code that keeps no local state. *)
Definition and_then {A B} (r : result A) (k : A -> result B) : result B :=
  match r with
  | Ok a => k a
  | Raise e => Raise e
  end.

(** [[x for x in xs if test x]] where [test] may raise: the tests run in
    the order of [xs], and the first that raises ends the comprehension. *)
Fixpoint keep_if {A} (test : A -> result bool) (xs : list A)
  : result (list A) :=
  match xs with
  | [] => Ok []
  | x :: xs' =>
      and_then (test x) (fun keep =>
      and_then (keep_if test xs') (fun rest =>
      Ok (if keep then x :: rest else rest)))
  end.

(** [[f x for x in xs]] where [f] may raise, without local state. *)
Fixpoint collect_each {A B} (f : A -> result B) (xs : list A)
  : result (list B) :=
  match xs with
  | [] => Ok []
  | x :: xs' =>
      and_then (f x) (fun y =>
      and_then (collect_each f xs') (fun ys => Ok (y :: ys)))
  end.

(** [[f x for x in xs]] where [f] may raise. *)
Fixpoint comprehension {S A B} (xs : list A) (f : A -> M S B) : M S (list B) :=
  match xs with
  | [] => ret []
  | x :: xs' => do y <- f x; do ys <- comprehension xs' f; ret (y :: ys)
  end.

(** ** Python strings and paths *)

Module Py.

(** [str.isspace] on one code point below 256. *)
Definition isspace (c : ascii) : bool :=
  let n := nat_of_ascii c in
  ((9 <=? n) && (n <=? 13) || (28 <=? n) && (n <=? 32)
   || (n =? 133) || (n =? 160))%nat.

Fixpoint lstrip (s : string) : string :=
  match s with
  | EmptyString => EmptyString
  | String c s' => if isspace c then lstrip s' else s
  end.

Fixpoint rstrip (s : string) : string :=
  match s with
  | EmptyString => EmptyString
  | String c s' =>
      match rstrip s' with
      | EmptyString => if isspace c then EmptyString else String c EmptyString
      | r => String c r
      end
  end.

(** [s.strip()] *)
Definition strip (s : string) : string := rstrip (lstrip s).

(** [s.split(sep)] for a one-character separator: never the empty list. *)
Fixpoint split (sep : ascii) (s : string) : list string :=
  match s with
  | EmptyString => [EmptyString]
  | String c s' =>
      if Ascii.eqb c sep then EmptyString :: split sep s'
      else match split sep s' with
           | h :: t => String c h :: t
           | [] => [String c EmptyString]
           end
  end.

(** [xs[-1]] *)
Definition last_item {A} (xs : list A) : result A :=
  match last xs with
  | Some x => Ok x
  | None => Raise IndexError
  end.

(** [s.startswith(p)] *)
Definition startswith (s p : string) : bool := String.prefix p s.

(** [p in s] *)
Fixpoint contains (p s : string) : bool :=
  String.prefix p s ||
  match s with
  | EmptyString => false
  | String _ s' => contains p s'
  end.

(** [s.rfind(c)], [None] for -1. *)
Fixpoint rfind (c : ascii) (s : string) : option nat :=
  match s with
  | EmptyString => None
  | String a s' =>
      match rfind c s' with
      | Some i => Some (S i)
      | None => if Ascii.eqb a c then Some 0%nat else None
      end
  end.

(** [PurePosixPath(p).name]: the last component that is neither empty nor
    a single dot, the empty string when there is none. *)
Definition path_name (p : string) : string :=
  let parts :=
    List.filter (fun x => negb (String.eqb x "") && negb (String.eqb x "."))
                (split "/" p) in
  match last parts with
  | Some x => x
  | None => ""
  end.

(** [PurePosixPath(p).stem] *)
Definition path_stem (p : string) : string :=
  let name := path_name p in
  match rfind "." name with
  | Some i =>
      if ((0 <? i) && (i + 1 <? String.length name))%nat
      then String.substring 0 i name
      else name
  | None => name
  end.

End Py.

(** ** Values and the observed environment *)

(** What Python holds in a cell: [sqlite3] hands back [None], [int],
    [float], [str] or [bytes]; a float is carried by its binary64 bits. *)
Inductive pyval : Type :=
  | PyNone
  | PyInt (z : Z)
  | PyFloat (bits : Z)
  | PyStr (s : string)
  | PyBytes (b : list Byte.byte).

(** One table of a store: its declared column names and its rows, a row
    giving the value stored under each column name. *)
Record Table : Type := {
  columns : list string;
  rows : list (string -> pyval)
}.

(** The [sqlite3] calls made on a store, in the order of the source. *)
Inductive DbCall : Type := Connect | ListTables | TableInfo | SelectRow.

(** A [run.stats] file as [sqlite3] sees it: which calls raise, and the
    tables it holds. *)
Record StatsStore : Type := {
  fails : DbCall -> bool;
  tables : list (string * Table)
}.

(** A run directory. [exists] on one of its children needs the directory
    to be searchable and nothing else, so the three calls of the source
    answer together or raise together. When the directory cannot be
    searched, [exists] raises for the child of each name (a
    [PermissionError] in CPython 3.8 to 3.13). Otherwise each artefact is
    absent ([None]) or present; a present [info] file gives what [open] and
    [readline] produce, a present [warnings.txt] what [open] and iterating
    over its lines produce. *)
Inductive RunDir : Type :=
  | Unsearchable (e : string -> exn)
  | Searchable (info : option (result string))
               (stats : option StatsStore)
               (warnings : option (result (list string))).

(** [(klee_out_dir / "info").exists()], with what the file gives. *)
Definition info_file (rd : RunDir) : result (option (result string)) :=
  match rd with
  | Unsearchable e => Raise (e "info")
  | Searchable info _ _ => Ok info
  end.

(** [(klee_out_dir / "run.stats").exists()], with the store. *)
Definition stats_file (rd : RunDir) : result (option StatsStore) :=
  match rd with
  | Unsearchable e => Raise (e "run.stats")
  | Searchable _ stats _ => Ok stats
  end.

(** [(klee_out_dir / "warnings.txt").exists()], with what the log gives. *)
Definition warnings_file (rd : RunDir)
  : result (option (result (list string))) :=
  match rd with
  | Unsearchable e => Raise (e "warnings.txt")
  | Searchable _ _ warnings => Ok warnings
  end.

(** The results root. [exists_root] is [RESULTS_DIR.exists()]. [iterdir]
    raises [FileNotFoundError] when the root does not exist, another
    exception when it is not a directory or cannot be read, and otherwise
    lists the names of its entries in the order the operating system yields
    them; a child path is represented by its name. [is_dir] may raise like
    [exists]. [open_output] is [open(OUTPUT_CSV, "w")]. [writerows_fault]
    tells whether writing a table is cut short by an exception (a cell that
    cannot be encoded, a full disk), and after how many of its rows. *)
Record FileSystem : Type := {
  exists_root : result bool;
  iterdir : result (list string);
  is_dir : string -> result bool;
  run_dir : string -> RunDir;
  open_output : result unit;
  writerows_fault : list (list pyval) -> option (exn * nat)
}.

(** ** [sqlite3] *)

Definition find_table (st : StatsStore) (name : string) : option Table :=
  snd <$> List.find (fun nt => String.eqb (fst nt) name) (tables st).

Definition guard_call (st : StatsStore) (c : DbCall) : result unit :=
  if fails st c then Raise DatabaseError else Ok tt.

Definition sqlite3_connect (st : StatsStore) : result unit :=
  guard_call st Connect.

(** [SELECT name FROM sqlite_master WHERE type='table';] then [fetchall],
    first column. *)
Definition query_table_names (st : StatsStore) : result (list string) :=
  match guard_call st ListTables with
  | Raise e => Raise e
  | Ok _ => Ok (map fst (tables st))
  end.

(** [PRAGMA table_info(name);] then [fetchall], column 1 of each row. *)
Definition query_table_info (st : StatsStore) (name : string)
  : result (list string) :=
  match guard_call st TableInfo with
  | Raise e => Raise e
  | Ok _ => Ok (match find_table st name with
                | Some t => columns t
                | None => []
                end)
  end.

Definition mem (x : string) (xs : list string) : bool :=
  existsb (String.eqb x) xs.

(** [SELECT c1, ..., ck FROM name LIMIT 1;] then [fetchone]: the store
    rejects a query that names a missing table or column. *)
Definition query_first_row (st : StatsStore) (name : string)
    (cols : list string) : result (option (list pyval)) :=
  match guard_call st SelectRow with
  | Raise e => Raise e
  | Ok _ =>
      match find_table st name with
      | None => Raise DatabaseError
      | Some t =>
          if forallb (fun c => mem c (columns t)) cols
          then Ok ((fun r => map r cols) <$> head (rows t))
          else Raise DatabaseError
      end
  end.

(** ** [extract_klee_features.py] *)

Definition RESULTS_DIR : string := "results".
Definition OUTPUT_CSV : string := "results/klee_features_rich_gurman.csv".
Definition KLEE_OUT_PREFIX : string := "klee-out-".

Definition FEATURE_COLUMNS : list string :=
  [ "Instructions"; "FullBranches"; "PartialBranches"; "NumBranches";
    "SolverQueries"; "NumQueryConstructs"; "CoveredInstructions";
    "UncoveredInstructions"; "UserTime"; "Allocations"; "ExternalCalls" ].

Definition gets {S A} (f : S -> A) : M S A := fun s => (Ok (f s), s).

(** *** [extract_stats] *)

(** The locals of [extract_stats] that outlive its [try] blocks. *)
Record stats_locals : Type := {
  stats : gmap string pyval;
  warnings_count : Z
}.

(** [stats[col] = v] *)
Definition set_stat (col : string) (v : pyval) : M stats_locals unit :=
  modify (fun l => {| stats := <[col := v]> (stats l);
                      warnings_count := warnings_count l |}).

(** [stats[key]] *)
Definition get_stat (key : string) : M stats_locals pyval :=
  fun l => (match stats l !! key with
            | Some v => Ok v
            | None => Raise (KeyError key)
            end, l).

Definition set_warnings_count (n : Z) : M stats_locals unit :=
  modify (fun l => {| stats := stats l; warnings_count := n |}).

(** [row[i]] *)
Definition getitem (row : list pyval) (i : nat) : result pyval :=
  match row !! i with
  | Some v => Ok v
  | None => Raise IndexError
  end.

(** [enumerate(xs)] *)
Definition enumerate {A} (xs : list A) : list (nat * A) :=
  zip (seq 0 (length xs)) xs.

(** [{key: 0 for key in FEATURE_COLUMNS}] *)
Definition initial_stats : gmap string pyval :=
  foldl (fun m key => <[key := PyInt 0]> m) ∅ FEATURE_COLUMNS.

(** [v if v is not None else 0] *)
Definition none_to_zero (v : pyval) : pyval :=
  match v with
  | PyNone => PyInt 0
  | _ => v
  end.

(** Lines 46 and 47, for one pair [(i, col)] of [enumerate(selected)]:
    [stats[col] = row[i] if row[i] is not None else 0]. *)
Definition assign_metric (row : list pyval) (ic : nat * string)
  : M stats_locals unit :=
  do v <- lift (getitem row (fst ic));
  set_stat (snd ic) (none_to_zero v).

(** The body of the first [try] block (lines 33 to 48); [conn.close()]
    releases the handle and does not raise. *)
Definition read_stats (st : StatsStore) : M stats_locals unit :=
  exec lift (sqlite3_connect st);
  do table_names <- lift (query_table_names st);
  if mem "stats" table_names then
    do available_columns <- lift (query_table_info st "stats");
    let selected :=
      List.filter (fun col => mem col available_columns) FEATURE_COLUMNS in
    match selected with
    | [] => ret tt
    | _ :: _ =>
        do row <- lift (query_first_row st "stats" selected);
        match row with
        | Some ((_ :: _) as r) => for_each (enumerate selected) (assign_metric r)
        | _ => ret tt
        end
    end
  else ret tt.

(** [sum(1 for line in f if line.strip().startswith("KLEE: WARNING"))] *)
Definition count_warnings (lines : list string) : Z :=
  Z.of_nat (length (List.filter
    (fun line => Py.startswith (Py.strip line) "KLEE: WARNING") lines)).

Definition extract_stats_body (d : RunDir) : M stats_locals (list pyval) :=
  do store <- lift (stats_file d);
  exec match store with
       | Some st => try_except (read_stats st)
       | None => ret tt
       end;
  do log <- lift (warnings_file d);
  exec match log with
       | Some f =>
           try_except (do lines <- lift f;
                       set_warnings_count (count_warnings lines))
       | None => ret tt
       end;
  do values <- comprehension FEATURE_COLUMNS get_stat;
  do n <- gets warnings_count;
  ret (values ++ [PyInt n])%list.

(** The locals on entry: every metric 0, no warning counted. *)
Definition stats_defaults : stats_locals :=
  {| stats := initial_stats; warnings_count := 0 |}.

Definition extract_stats (fs : FileSystem) (klee_out_dir : string)
  : result (list pyval) :=
  fst (extract_stats_body (run_dir fs klee_out_dir) stats_defaults).

(** *** [extract_info_and_label] *)

Record info_locals : Type := {
  function_name : string;
  label : Z
}.

Definition set_function_name (s : string) : M info_locals unit :=
  modify (fun l => {| function_name := s; label := label l |}).

Definition set_label (z : Z) : M info_locals unit :=
  modify (fun l => {| function_name := function_name l; label := z |}).

(** Lines 93 to 99: the label is read off the name held in
    [function_name]; in the last branch the code only logs. *)
Definition infer_label : M info_locals unit :=
  do name <- gets function_name;
  if Py.contains "_bad" name then set_label 1
  else if Py.contains "_good" name then set_label 0
  else ret tt.

(** The body of the [try] block (lines 83 to 99), given what [open] and
    [readline] produce. *)
Definition read_info (f : result string) : M info_locals unit :=
  do first_line <- lift f;
  let parts := Py.split " " (Py.strip first_line) in
  do bitcode_path <- lift (Py.last_item parts);
  exec set_function_name (Py.path_stem bitcode_path);
  infer_label.

(** The locals on entry: [function_name = "unknown"], [label = -1]. *)
Definition info_defaults : info_locals :=
  {| function_name := "unknown"; label := -1 |}.

Definition extract_info_and_label (fs : FileSystem) (klee_out_dir : string)
  : result (string * Z) :=
  and_then (info_file (run_dir fs klee_out_dir)) (fun info =>
  match info with
  | None => Ok (function_name info_defaults, label info_defaults)
  | Some f =>
      match try_except (read_info f) info_defaults with
      | (Ok _, l) => Ok (function_name l, label l)
      | (Raise e, _) => Raise e
      end
  end).

(** *** [collect_klee_outputs] *)

(** [sorted(xs)] on paths of one directory: a stable sort that, like
    Python's, only asks whether one element is less than another. *)
Fixpoint insert_sorted (x : string) (xs : list string) : list string :=
  match xs with
  | [] => [x]
  | y :: ys => if String.ltb y x then y :: insert_sorted x ys else x :: xs
  end.

Fixpoint sorted (xs : list string) : list string :=
  match xs with
  | [] => []
  | x :: xs' => insert_sorted x (sorted xs')
  end.

(** [d.is_dir() and d.name.startswith(KLEE_OUT_PREFIX)] *)
Definition is_klee_output (fs : FileSystem) (d : string) : result bool :=
  and_then (is_dir fs d) (fun directory =>
  Ok (directory && Py.startswith d KLEE_OUT_PREFIX)).

Definition collect_klee_outputs (fs : FileSystem) : result (list string) :=
  and_then (iterdir fs) (fun entries =>
  and_then (keep_if (is_klee_output fs) entries) (fun out_dirs =>
  Ok (sorted out_dirs))).

(** *** [main] *)

Definition header : list pyval :=
  map PyStr (["klee_dir_name"; "function_name"] ++ FEATURE_COLUMNS
             ++ ["warnings"; "label"])%list.

(** The body of the loop of lines 116 to 124, on the local [features]. *)
Definition append_row (fs : FileSystem) (klee_dir : string)
  : M (list (list pyval)) unit :=
  do nl <- lift (extract_info_and_label fs klee_dir);
  do stat_values <- lift (extract_stats fs klee_dir);
  modify (fun features =>
    (features ++ [PyStr klee_dir :: PyStr (fst nl) :: stat_values
                  ++ [PyInt (snd nl)]])%list).

(** How an invocation ends: with an exception nobody caught before anything
    was written; with an exception that cut the write short and left the
    rows [partial] in the file; or by returning, having written the table
    [saved] to a file or nothing. *)
Inductive outcome : Type :=
  | Uncaught (e : exn)
  | WriteAborted (e : exn) (partial : string * list (list pyval))
  | Finished (saved : option (string * list (list pyval))).

Definition main (fs : FileSystem) : outcome :=
  match collect_klee_outputs fs with
  | Raise e => Uncaught e
  | Ok out_dirs =>
      match out_dirs with
      | [] => Finished None
      | _ :: _ =>
          match for_each out_dirs (append_row fs) [header] with
          | (Raise e, _) => Uncaught e
          | (Ok _, features) =>
              match open_output fs with
              | Raise e => Uncaught e
              | Ok _ =>
                  match writerows_fault fs features with
                  | Some (e, written) =>
                      WriteAborted e (OUTPUT_CSV, take written features)
                  | None => Finished (Some (OUTPUT_CSV, features))
                  end
              end
          end
      end
  end.

(** The data rows of the persisted table, none when nothing was written. *)
Definition saved_rows (o : outcome) : list (list pyval) :=
  match o with
  | Finished (Some (_, features)) => tail features
  | WriteAborted _ (_, features) => tail features
  | _ => []
  end.

(** ** [train_model.py] *)

(** One row of the loaded data frame: the run directory name, the
    program-unit name, the twelve feature columns and the label. *)
Record DataRow : Type := {
  row_dir : string;
  row_unit : string;
  row_X : list pyval;
  row_label : Z
}.

(** What the script does that can be seen from outside, in order. *)
Inductive event : Type :=
  | Stdout (text : string)
  | StdoutShape (caption : string) (nrows : nat)
  | StdoutCounts (labels : list Z)
  | StdoutSizes (ntrain ntest : nat)
  | StdoutAccuracy (y_test y_pred : list Z)
  | StdoutReport (y_test y_pred : list Z)
  | CallTrainTestSplit (X : list (list pyval)) (y : list Z)
  | CallFit (X_train : list (list pyval)) (y_train : list Z)
  | CallPredict (X_test : list (list pyval))
  | SysExit
  | Traceback (e : exn).

(** [df[df['label'] != -1].copy()] *)
Definition df_cleaned (df : list DataRow) : list DataRow :=
  List.filter (fun r => negb (row_label r =? -1)) df.

(** scikit-learn, as far as the script calls it:
    [train_test_split(X, y, test_size=t, random_state=r, stratify=s)],
    [DecisionTreeClassifier(random_state=r).fit(X, y)], [predict],
    [accuracy_score] (whose value is only printed) and
    [classification_report] with two target names. Each call may raise;
    with a seed given, each is a function of its arguments. *)
Record Sklearn : Type := {
  Model : Type;
  train_test_split :
    list (list pyval) -> list Z -> pyval -> Z -> list Z ->
    result ((list (list pyval) * list (list pyval)) * (list Z * list Z));
  fit : Z -> list (list pyval) -> list Z -> result Model;
  predict : Model -> list (list pyval) -> result (list Z);
  accuracy_score : list Z -> list Z -> result unit;
  classification_report : list Z -> list Z -> result unit
}.

(** [test_size=0.2], the binary64 nearest to one fifth, and
    [random_state=42]. *)
Definition test_size : pyval := PyFloat 4596373779694328218.
Definition random_state : Z := 42.

(** The split as lines 55 to 57 call it. *)
Definition split (sk : Sklearn) (X : list (list pyval)) (y : list Z)
  : result ((list (list pyval) * list (list pyval)) * (list Z * list Z)) :=
  train_test_split sk X y test_size random_state y.

(** The tree as lines 67 and 70 build and fit it. *)
Definition fit_tree (sk : Sklearn) (X_train : list (list pyval))
    (y_train : list Z) : result (Model sk) :=
  fit sk random_state X_train y_train.

(** Lines 67 to 86, once the split has returned. *)
Definition train_and_evaluate (sk : Sklearn)
    (X_train X_test : list (list pyval)) (y_train y_test : list Z)
  : list event :=
  [ StdoutSizes (length X_train) (length X_test);
    CallFit X_train y_train ] ++
  match fit_tree sk X_train y_train with
  | Raise e => [ Traceback e ]
  | Ok model =>
      [ Stdout " Model training complete.";
        CallPredict X_test ] ++
      match predict sk model X_test with
      | Raise e => [ Traceback e ]
      | Ok y_pred =>
          match accuracy_score sk y_test y_pred with
          | Raise e => [ Traceback e ]
          | Ok _ =>
              [ StdoutAccuracy y_test y_pred ] ++
              match classification_report sk y_test y_pred with
              | Raise e => [ Traceback e ]
              | Ok _ => [ StdoutReport y_test y_pred ]
              end
          end
      end
  end%list.

(** The script, given what [pd.read_csv] finds at the dataset path
    ([None] when the file is missing). *)
Definition train_model (sk : Sklearn) (file : option (list DataRow))
  : list event :=
  match file with
  | None =>
      [ Stdout " ERROR: Could not find the file at results/klee_features_rich_gurman.csv";
        Stdout "Please make sure the script is in your 'SS PROJECT' directory.";
        SysExit ]
  | Some df =>
      [ Stdout " Successfully loaded the dataset.";
        StdoutShape "Original shape of the dataset" (length df) ] ++
      let cleaned := df_cleaned df in
      match cleaned with
      | [] =>
          [ Stdout " ERROR: After cleaning, no data with labels 0 or 1 was found.";
            Stdout "Please check your feature extraction script and CSV file.";
            SysExit ]
      | _ :: _ =>
          let X := map row_X cleaned in
          let y := map row_label cleaned in
          [ StdoutShape "Shape after removing unknown labels (-1)"
                        (length cleaned);
            StdoutCounts y;
            CallTrainTestSplit X y ] ++
          match split sk X y with
          | Raise e => [ Traceback e ]
          | Ok (X_train, X_test, (y_train, y_test)) =>
              train_and_evaluate sk X_train X_test y_train y_test
          end
      end
  end%list.

(** Whether an event is a split or a fit. *)
Definition is_split_or_fit (e : event) : bool :=
  match e with
  | CallTrainTestSplit _ _ | CallFit _ _ => true
  | _ => false
  end.

(** [X = df_cleaned[feature_columns]] and [y = df_cleaned['label']] for a
    loaded frame. *)
Definition X_features (df : list DataRow) : list (list pyval) :=
  map row_X (df_cleaned df).

Definition y_target (df : list DataRow) : list Z :=
  map row_label (df_cleaned df).

(** *** What scikit-learn documents for the split *)

(** The size of the held-out part for [test_size=0.2]: [ceil(0.2 * n)]
    computed in binary64, which is a fifth of [n] rounded up for every [n]
    below 2^50. *)
Definition n_test (n : nat) : nat := ((n + 4) / 5)%nat.

(** The size of the training part: the rest. *)
Definition n_train (n : nat) : nat := (n - n_test n)%nat.

(** The classes of [y], each once. *)
Fixpoint classes (y : list Z) : list Z :=
  match y with
  | [] => []
  | c :: y' => if existsb (Z.eqb c) (classes y') then classes y'
               else c :: classes y'
  end.

(** The number of members of class [c]. *)
Definition class_count (c : Z) (y : list Z) : nat :=
  length (List.filter (Z.eqb c) y).

(** When [train_test_split] with [test_size=0.2] and [stratify=y] raises
    [ValueError]: the training part would be empty, a class has fewer than
    two members, or one of the parts could not hold one row of each
    class. *)
Definition split_refusal (y : list Z) : option exn :=
  let n := length y in
  if (n_train n =? 0)%nat then Some ValueError
  else if existsb (fun c => (class_count c y <? 2)%nat) (classes y)
       then Some ValueError
  else if (n_train n <? length (classes y))%nat then Some ValueError
  else if (n_test n <? length (classes y))%nat then Some ValueError
  else None.

(** [k] is the quotient [a / n] rounded down or up. *)
Definition rounds (k a n : nat) : Prop :=
  (k * n <= a /\ a < (k + 1) * n)%nat \/
  ((k - 1) * n < a /\ a <= k * n /\ 1 <= k)%nat.

(** What the documentation promises of one call: the refusals above, and
    otherwise a partition of the rows into a held-out part of [n_test]
    rows and the rest, in which every class sends to the training part its
    proportional share of the training size, rounded down or up. Which
    rows are drawn is decided by the generator seeded with [random_state]
    and is not described here. *)
Definition respects_contract (X : list (list pyval)) (y : list Z)
    (r : result ((list (list pyval) * list (list pyval))
                 * (list Z * list Z))) : Prop :=
  match split_refusal y with
  | Some e => r = Raise e
  | None =>
      exists X_train X_test y_train y_test,
        r = Ok (X_train, X_test, (y_train, y_test)) /\
        length X_train = length y_train /\
        length X_test = length y_test /\
        (zip X_train y_train ++ zip X_test y_test)%list ≡ₚ zip X y /\
        length y_test = n_test (length y) /\
        forall c, c ∈ classes y ->
          rounds (class_count c y_train)
                 (class_count c y * n_train (length y)) (length y)
  end.

(** ** Notions used by the statements *)

(** [p] occurs in [s]. *)
Definition Substring (p s : string) : Prop :=
  exists pre post, s = pre ++ p ++ post.

(** An [int] or a [float]. *)
Definition is_number (v : pyval) : Prop :=
  match v with
  | PyInt _ | PyFloat _ => True
  | _ => False
  end.

(** The first data row of the [stats] table holds numbers or NULL only
    under the metric columns. *)
Definition numeric_store (st : StatsStore) : Prop :=
  forall t r col,
    find_table st "stats" = Some t -> head (rows t) = Some r ->
    col ∈ FEATURE_COLUMNS ->
    r col = PyNone \/ is_number (r col).

(** The metric of column [key] in a feature vector. *)
Fixpoint metric_at (names : list string) (values : list pyval) (key : string)
  : option pyval :=
  match names, values with
  | n :: names', v :: values' =>
      if String.eqb n key then Some v else metric_at names' values' key
  | _, _ => None
  end.

(** The label the code infers for a name, starting from the default -1. *)
Definition inferred (name : string) : Z :=
  label (snd (infer_label {| function_name := name; label := -1 |})).

(** The columns and the row that [read_stats] assigns from: [None] when a
    call raises, the table or every metric column is missing, or the table
    has no row. *)
Definition store_row (st : StatsStore)
  : option (list string * (string -> pyval)) :=
  if fails st Connect || fails st ListTables then None
  else if mem "stats" (map fst (tables st)) then
    if fails st TableInfo then None
    else match find_table st "stats" with
         | None => None
         | Some t =>
             match List.filter (fun col => mem col (columns t))
                               FEATURE_COLUMNS with
             | [] => None
             | (_ :: _) as selected =>
                 if fails st SelectRow then None
                 else match head (rows t) with
                      | Some r => Some (selected, r)
                      | None => None
                      end
             end
         end
  else None.

(** [stats] after assigning the columns [selected] from the row [r]. *)
Definition updated_stats (r : string -> pyval) (selected : list string)
    (m : gmap string pyval) : gmap string pyval :=
  foldl (fun m col => <[col := none_to_zero (r col)]> m) m selected.

(** The value a run contributes for the metric [key], given its store. *)
Definition metric_value (stats : option StatsStore) (key : string) : pyval :=
  match stats with
  | Some st =>
      match store_row st with
      | Some (selected, r) =>
          if mem key selected then none_to_zero (r key) else PyInt 0
      | None => PyInt 0
      end
  | None => PyInt 0
  end.

(** The warning count a run contributes, given its log. *)
Definition warnings_value (warnings : option (result (list string))) : Z :=
  match warnings with
  | Some (Ok lines) => count_warnings lines
  | _ => 0
  end.

(** The name a run contributes, given its [info] file. *)
Definition name_of (info : option (result string)) : string :=
  match info with
  | Some (Ok line) =>
      match last (Py.split " " (Py.strip line)) with
      | Some token => Py.path_stem token
      | None => "unknown"
      end
  | _ => "unknown"
  end.

(** The row [main] appends for a run directory, when it can be searched;
    when it cannot, the first call of [exists], on [info], raises. *)
Definition row_of (klee_dir : string) (rd : RunDir) : result (list pyval) :=
  match rd with
  | Unsearchable e => Raise (e "info")
  | Searchable info stats warnings =>
      Ok (PyStr klee_dir :: PyStr (name_of info)
          :: map (metric_value stats) FEATURE_COLUMNS
          ++ [PyInt (warnings_value warnings); PyInt (inferred (name_of info))])%list
  end.

(** The rows of the run directories [dirs], up to the first that cannot be
    searched. *)
Definition rows_of (fs : FileSystem) (dirs : list string)
  : result (list (list pyval)) :=
  collect_each (fun d => row_of d (run_dir fs d)) dirs.

(** What [main] does once the enumerator has returned run directories. *)
Definition assemble (fs : FileSystem) (out_dirs : list string) : outcome :=
  match rows_of fs out_dirs with
  | Raise e => Uncaught e
  | Ok rs =>
      match open_output fs with
      | Raise e => Uncaught e
      | Ok _ =>
          match writerows_fault fs (header :: rs) with
          | Some (e, written) =>
              WriteAborted e (OUTPUT_CSV, take written (header :: rs))
          | None => Finished (Some (OUTPUT_CSV, header :: rs))
          end
      end
  end.

(** A run directory that can be searched. *)
Definition searchable (rd : RunDir) : Prop :=
  match rd with
  | Unsearchable _ => False
  | Searchable _ _ _ => True
  end.

(** Two listings of the results root show the same entries, in whatever
    order the operating system yields them, or fail alike. *)
Definition same_listing (a b : result (list string)) : Prop :=
  match a, b with
  | Ok xs, Ok ys => xs ≡ₚ ys
  | Raise e1, Raise e2 => e1 = e2
  | _, _ => False
  end.

(** [name] is an entry of the results root. *)
Definition listed (fs : FileSystem) (name : string) : Prop :=
  match iterdir fs with
  | Ok entries => name ∈ entries
  | Raise _ => False
  end.

(** ** Sample environments *)

Module Sample.

Definition reliable : DbCall -> bool := fun _ => false.

(** A store whose [stats] table has three of the metric columns, one of
    them holding NULL, and a column the extractor does not know. *)
Definition table : Table :=
  {| columns := ["Instructions"; "FullBranches"; "UserTime"; "Forks"];
     rows := [fun col =>
                if String.eqb col "Instructions" then PyInt 1200
                else if String.eqb col "FullBranches" then PyNone
                else if String.eqb col "UserTime" then PyInt 35
                else PyInt 7] |}.

Definition store : StatsStore :=
  {| fails := reliable; tables := [("stats", table)] |}.

(** A file that is not a database: the first query raises. *)
Definition broken_store : StatsStore :=
  {| fails := fun c => match c with ListTables => true | _ => false end;
     tables := [] |}.

(** A store that holds text where a number is expected. *)
Definition text_store : StatsStore :=
  {| fails := reliable;
     tables := [("stats",
                 {| columns := ["Instructions"];
                    rows := [fun _ => PyStr "n/a"] |})] |}.

(** A store with numeric metrics and a text column the extractor does not
    know. *)
Definition noted_store : StatsStore :=
  {| fails := reliable;
     tables := [("stats",
                 {| columns := ["Instructions"; "Note"];
                    rows := [fun col => if String.eqb col "Note"
                                        then PyStr "slow" else PyInt 9] |})] |}.

Definition log : option (result (list string)) :=
  Some (Ok ["KLEE: WARNING: undefined reference";
            "  KLEE: WARNING ONCE: calling external";
            "KLEE: NOTE: done"]).

Definition run (line : string) (st : option StatsStore) : RunDir :=
  Searchable (Some (Ok line)) st log.

Definition bare : RunDir := Searchable None None None.

(** Five runs, as in the example of the specification: two vulnerable
    units, one safe unit, one with an unrecognised name and one without
    metadata. *)
Definition runs (name : string) : RunDir :=
  if String.eqb name "klee-out-0"
  then run "klee --libc=uclibc ../results/CWE190_x_bad.bc" (Some store)
  else if String.eqb name "klee-out-1"
  then run "klee --libc=uclibc ../results/CWE190_x_good.bc" (Some broken_store)
  else if String.eqb name "klee-out-2"
  then run "klee --libc=uclibc ../results/CWE121_y_bad.bc" None
  else if String.eqb name "klee-out-3"
  then run "klee --libc=uclibc ../results/unknown_z.bc" None
  else bare.

Definition listing : list string :=
  ["klee-out-3"; "klee-out-0"; "klee_features_rich_gurman.csv";
   "klee-out-4"; "klee-out-1"; "klee-out-2"].

Definition no_fault : list (list pyval) -> option (exn * nat) :=
  fun _ => None.

Definition prefixed (name : string) : result bool :=
  Ok (Py.startswith name "klee-out-").

Definition fs : FileSystem :=
  {| exists_root := Ok true;
     iterdir := Ok listing;
     is_dir := prefixed;
     run_dir := runs;
     open_output := Ok tt;
     writerows_fault := no_fault |}.

(** The same root, listed by the operating system in another order. *)
Definition fs_relisted : FileSystem :=
  {| exists_root := Ok true;
     iterdir := Ok (rev listing);
     is_dir := prefixed;
     run_dir := runs;
     open_output := Ok tt;
     writerows_fault := no_fault |}.

(** The same root after the run directory [klee-out-1] lost its search
    permission. *)
Definition fs_unsearchable : FileSystem :=
  {| exists_root := Ok true;
     iterdir := Ok listing;
     is_dir := prefixed;
     run_dir := fun name =>
       if String.eqb name "klee-out-1"
       then Unsearchable
              (fun child => PermissionError ("results/klee-out-1/" ++ child))
       else runs name;
     open_output := Ok tt;
     writerows_fault := no_fault |}.

(** The same root, where the row of [klee-out-2] cannot be encoded: the
    write stops after the header and two rows. *)
Definition fs_unencodable : FileSystem :=
  {| exists_root := Ok true;
     iterdir := Ok listing;
     is_dir := prefixed;
     run_dir := runs;
     open_output := Ok tt;
     writerows_fault := fun _ => Some (UnicodeEncodeError, 3%nat) |}.

(** A root with the given run directory as its only entry. *)
Definition single (rd : RunDir) : FileSystem :=
  {| exists_root := Ok true;
     iterdir := Ok ["klee-out-0"];
     is_dir := fun _ => Ok true;
     run_dir := fun _ => rd;
     open_output := Ok tt;
     writerows_fault := no_fault |}.

(** No results root. *)
Definition fs_no_root : FileSystem :=
  {| exists_root := Ok false;
     iterdir := Raise (FileNotFoundError "results");
     is_dir := fun _ => Ok false;
     run_dir := fun _ => bare;
     open_output := Ok tt;
     writerows_fault := no_fault |}.

(** One run whose [info] file is empty. *)
Definition fs_empty_info : FileSystem :=
  single (Searchable (Some (Ok "")) None None).


(** One run whose store holds text. *)
Definition fs_text_store : FileSystem :=
  single (Searchable None (Some text_store) None).

(** One run whose store holds numbers under the metric columns. *)
Definition fs_noted_store : FileSystem :=
  single (Searchable None (Some noted_store) None).

(** A data frame with one labelled row among unlabelled ones, and one
    with none. *)
Definition df_mixed : list DataRow :=
  [ {| row_dir := "klee-out-0"; row_unit := "CWE190_x_bad";
       row_X := [PyInt 1200]; row_label := 1 |};
    {| row_dir := "klee-out-3"; row_unit := "unknown_z";
       row_X := [PyInt 0]; row_label := -1 |} ].

Definition df_unknown : list DataRow :=
  [ {| row_dir := "klee-out-3"; row_unit := "unknown_z";
       row_X := [PyInt 0]; row_label := -1 |};
    {| row_dir := "klee-out-4"; row_unit := "unknown";
       row_X := [PyInt 0]; row_label := -1 |} ].

Definition labelled (i label : Z) : DataRow :=
  {| row_dir := "klee-out"; row_unit := "unit";
     row_X := [PyInt i]; row_label := label |}.

(** The data frame of the example of the specification: labels 1, 0, 1,
    -1, -1. *)
Definition df_example : list DataRow :=
  [ labelled 0 1; labelled 1 0; labelled 2 1; labelled 3 (-1);
    labelled 4 (-1) ].

(** Ten labelled rows, five of each class. *)
Definition df_ten : list DataRow :=
  [ labelled 0 1; labelled 1 0; labelled 2 1; labelled 3 0; labelled 4 1;
    labelled 5 0; labelled 6 1; labelled 7 0; labelled 8 1; labelled 9 0 ].

(** A scikit-learn that refuses every split. *)
Definition refusing : Sklearn :=
  {| Model := unit;
     train_test_split := fun _ _ _ _ _ => Raise ValueError;
     fit := fun _ _ _ => Ok tt;
     predict := fun _ _ => Ok [];
     accuracy_score := fun _ _ => Ok tt;
     classification_report := fun _ _ => Ok tt |}.

(** A scikit-learn that holds out the last two rows and whose tree
    predicts 1 throughout. *)
Definition last_two : Sklearn :=
  {| Model := unit;
     train_test_split := fun X y _ _ _ =>
       Ok (take 8 X, drop 8 X, (take 8 y, drop 8 y));
     fit := fun _ _ _ => Ok tt;
     predict := fun _ X => Ok (map (fun _ => 1) X);
     accuracy_score := fun _ _ => Ok tt;
     classification_report := fun _ _ => Ok tt |}.

(** The same, but the tree cannot be fitted. *)
Definition unfit : Sklearn :=
  {| Model := unit;
     train_test_split := fun X y _ _ _ =>
       Ok (take 8 X, drop 8 X, (take 8 y, drop 8 y));
     fit := fun _ _ _ => Raise ValueError;
     predict := fun _ X => Ok (map (fun _ => 1) X);
     accuracy_score := fun _ _ => Ok tt;
     classification_report := fun _ _ => Ok tt |}.

End Sample.

(** ** [automate_klee_execution.py] *)

(** [f"{i}"] for a non-negative index. *)
Definition decimal (i : nat) : string :=
  NilEmpty.string_of_uint (Nat.to_uint i).

Definition newline : string := String (ascii_of_nat 10) EmptyString.

(** [f.readline()] on the text of a file just opened in text mode: up to
    the first line end, which is a line feed, a carriage return or both,
    and is handed over as a line feed. *)
Fixpoint readline (text : string) : string :=
  match text with
  | EmptyString => EmptyString
  | String c text' =>
      if Ascii.eqb c (ascii_of_nat 10) || Ascii.eqb c (ascii_of_nat 13)
      then newline
      else String c (readline text')
  end.

(** What the demonstration directory holds under a name: the log file that
    the logging set-up of lines 27 to 37 creates in the emptied directory,
    or a run directory with the text of its [info] file, if any. *)
Inductive demo_entry : Type :=
  | LogFile
  | FakeRun (info : option string).

(** The calls that write under the demonstration directory. *)
Inductive DemoCall : Type := Mkdir | OpenInfo | WriteInfo.

Module Automate.

Definition ORIGINAL_RESULTS_DIR : string := "results".
Definition DEMO_DIR : string := "results_demonstration".

(** The demonstration directory when [main] starts. *)
Definition fresh_demo_dir : gmap string demo_entry :=
  {[ "demonstration_log.txt" := LogFile ]}.

(** Lines 39 to 50; Python's [None] is [None]. The call of [exists] stands
    before the [try] block. *)
Definition get_function_name_from_info_file (fs : FileSystem)
    (klee_out_dir : string) : result (option string) :=
  and_then (info_file (run_dir fs klee_out_dir)) (fun info =>
  Ok match info with
     | None => None
     | Some (Raise _) => None
     | Some (Ok first_line) =>
         let parts := Py.split " " (Py.strip first_line) in
         match Py.last_item parts with
         | Ok token => Some (Py.path_stem token)
         | Raise _ => None
         end
     end).

(** [[name for name in function_names if name]]: [None] and the empty
    string are dropped. *)
Fixpoint keep_truthy (names : list (option string)) : list string :=
  match names with
  | [] => []
  | None :: rest => keep_truthy rest
  | Some name :: rest =>
      if String.eqb name "" then keep_truthy rest
      else name :: keep_truthy rest
  end.

Section Writes.

(** What the operating system refuses under the demonstration directory,
    by run directory name and call. *)
Variable fault : string -> DemoCall -> option exn.

(** [output_dir.mkdir()]: refuses a name that is taken. *)
Definition mkdir (name : string) : M (gmap string demo_entry) unit :=
  fun m => match fault name Mkdir, m !! name with
           | Some e, _ => (Raise e, m)
           | None, Some _ => (Raise OSError, m)
           | None, None => (Ok tt, <[name := FakeRun None]> m)
           end.

(** [open(output_dir / "info", "w")]: creates or empties the file. *)
Definition open_info (name : string) : M (gmap string demo_entry) unit :=
  fun m => match fault name OpenInfo, m !! name with
           | Some e, _ => (Raise e, m)
           | None, Some (FakeRun _) =>
               (Ok tt, <[name := FakeRun (Some "")]> m)
           | None, _ => (Raise OSError, m)
           end.

(** [f.write(text)] on the [info] file of [name]. *)
Definition write_info (name text : string)
  : M (gmap string demo_entry) unit :=
  fun m => match fault name WriteInfo, m !! name with
           | Some e, _ => (Raise e, m)
           | None, Some (FakeRun (Some written)) =>
               (Ok tt, <[name := FakeRun (Some (written ++ text))]> m)
           | None, _ => (Raise OSError, m)
           end.

(** The first line written to a fake [info] file (line 98). *)
Definition info_line (name : string) : string :=
  "klee --libc=uclibc ../../juliet-test-suite/testcases/some_path/"
  ++ name ++ ".bc" ++ newline.

(** The name of the [i]-th fake run directory (line 93). *)
Definition output_dir (i : nat) : string := "klee-out-" ++ decimal i.

(** The body of the loop of lines 81 to 101, for one pair [(i, name)]. *)
Definition fake_run (ic : nat * string) : M (gmap string demo_entry) unit :=
  exec mkdir (output_dir (fst ic));
  exec open_info (output_dir (fst ic));
  exec write_info (output_dir (fst ic)) (info_line (snd ic));
  write_info (output_dir (fst ic)) ("PID: 12345" ++ newline).

(** The names [main] works on (lines 72 to 74), given the entries of the
    root. *)
Definition function_names (fs : FileSystem) (entries : list string)
  : result (list string) :=
  and_then (keep_if (is_dir fs) entries) (fun directories =>
  let existing_klee_dirs := sorted directories in
  and_then (collect_each (get_function_name_from_info_file fs)
                         existing_klee_dirs) (fun names =>
  Ok (keep_truthy names))).

(** [main], on the demonstration directory. *)
Definition main (fs : FileSystem) : M (gmap string demo_entry) unit :=
  do present <- lift (exists_root fs);
  if present : bool then
    do entries <- lift (iterdir fs);
    do names <- lift (function_names fs entries);
    for_each (enumerate names) fake_run
  else ret tt.

End Writes.

End Automate.

(** ** Further notions *)

(** The character [c] occurs in [s]. *)
Fixpoint char_in (c : ascii) (s : string) : bool :=
  match s with
  | EmptyString => false
  | String a s' => Ascii.eqb a c || char_in c s'
  end.

(** [s] consists of white space only. *)
Fixpoint all_space (s : string) : bool :=
  match s with
  | EmptyString => true
  | String a s' => Py.isspace a && all_space s'
  end.



(** Whether an entry is a run directory for the extractor to pick up, when
    [is_dir] answers. *)
Definition is_run_dir (fs : FileSystem) (name : string) : bool :=
  match is_dir fs name with
  | Ok directory => directory && Py.startswith name KLEE_OUT_PREFIX
  | Raise _ => false
  end.


(** Nothing is refused under the demonstration directory. *)
Definition no_demo_fault : string -> DemoCall -> option exn :=
  fun _ _ => None.

Module Demo.

(** Original results whose metadata name a unit, name nothing, or are
    missing. *)
Definition originals (name : string) : RunDir :=
  if String.eqb name "klee-out-0"
  then Sample.run "klee --libc=uclibc ../results/CWE190_x_bad.bc" None
  else if String.eqb name "klee-out-1" then Sample.run "" None
  else if String.eqb name "klee-out-2"
  then Sample.run "klee ../results/CWE121_y_good.bc" None
  else Sample.bare.

Definition fs : FileSystem :=
  {| exists_root := Ok true;
     iterdir := Ok ["klee-out-2"; "klee-out-1"; "klee-out-0"; "old"];
     is_dir := fun _ => Ok true;
     run_dir := originals;
     open_output := Ok tt;
     writerows_fault := Sample.no_fault |}.

(** A root where the demonstration left the fake [info] file of a unit. *)
Definition fs_fake (name : string) : FileSystem :=
  Sample.single
    (Searchable
       (Some (Ok (readline (Automate.info_line name
                            ++ "PID: 12345" ++ newline))))
       None None).


End Demo.

(** * Properties *)

(** ** Strings *)

Lemma append_nil_l (s : string) : "" ++ s = s.
Proof. reflexivity. Qed.

Lemma append_cons (a : ascii) (s t : string) :
  String a s ++ t = String a (s ++ t).
Proof. reflexivity. Qed.

Lemma prefix_true_iff (p s : string) :
  String.prefix p s = true <-> exists post, s = p ++ post.
Proof.
  revert s. induction p as [|a p IH]; intros s.
  - split; [intros _; exists s; reflexivity | destruct s; reflexivity].
  - destruct s as [|b s]; simpl.
    + split; [discriminate | intros [post H]; discriminate H].
    + destruct (ascii_dec a b) as [->|Hne].
      * rewrite IH. split; intros [post H]; exists post.
        -- rewrite append_cons. now f_equal.
        -- rewrite append_cons in H. now inversion H.
      * split; [discriminate|]. intros [post H].
        rewrite append_cons in H. inversion H. congruence.
Qed.

Lemma contains_unfold (p s : string) :
  Py.contains p s =
  String.prefix p s ||
  match s with
  | EmptyString => false
  | String _ s' => Py.contains p s'
  end.
Proof. destruct s; reflexivity. Qed.

Lemma contains_true_iff (p s : string) :
  Py.contains p s = true <-> Substring p s.
Proof.
  unfold Substring. induction s as [|c s IH]; rewrite contains_unfold.
  - rewrite orb_false_r, prefix_true_iff. split.
    + intros [post H]. exists "", post. exact H.
    + intros [pre [post H]]. destruct pre; [exists post; exact H|].
      rewrite append_cons in H. discriminate H.
  - rewrite orb_true_iff, prefix_true_iff, IH. split.
    + intros [[post H]|[pre [post H]]].
      * exists "", post. exact H.
      * exists (String c pre), post. rewrite append_cons. now f_equal.
    + intros [pre [post H]]. destruct pre as [|c' pre].
      * left. exists post. exact H.
      * right. rewrite append_cons in H. inversion H. now exists pre, post.
Qed.

Lemma contains_false_iff (p s : string) :
  Py.contains p s = false <-> ~ Substring p s.
Proof.
  rewrite <- contains_true_iff. destruct (Py.contains p s); split; congruence.
Qed.

Lemma split_not_nil (sep : ascii) (s : string) : Py.split sep s <> [].
Proof.
  induction s as [|c s IH]; simpl; [discriminate|].
  destruct (Ascii.eqb c sep); [discriminate|].
  destruct (Py.split sep s); [contradiction | discriminate].
Qed.

Lemma last_item_split (sep : ascii) (s : string) :
  exists x, Py.last_item (Py.split sep s) = Ok x.
Proof.
  unfold Py.last_item. pose proof (split_not_nil sep s) as H.
  destruct (last (Py.split sep s)) as [x|] eqn:E; [now exists x|].
  apply last_None in E. contradiction.
Qed.

Lemma mem_true_iff (x : string) (xs : list string) :
  mem x xs = true <-> x ∈ xs.
Proof.
  unfold mem. rewrite existsb_exists, list_elem_of_In. split.
  - intros [y [Hin Heq]]. apply String.eqb_eq in Heq. now subst.
  - intros Hin. exists x. split; [exact Hin | apply String.eqb_refl].
Qed.

(** ** The metadata reader *)

Lemma infer_label_run (l : info_locals) :
  infer_label l =
  (Ok tt,
   {| function_name := function_name l;
      label := if Py.contains "_bad" (function_name l) then 1
               else if Py.contains "_good" (function_name l) then 0
               else label l |}).
Proof.
  unfold infer_label, bind, gets, set_label, modify, ret.
  destruct l as [n z]; simpl.
  destruct (Py.contains "_bad" n); [reflexivity|].
  destruct (Py.contains "_good" n); reflexivity.
Qed.

Lemma inferred_eq (name : string) :
  inferred name =
  if Py.contains "_bad" name then 1
  else if Py.contains "_good" name then 0 else -1.
Proof. unfold inferred. rewrite infer_label_run. reflexivity. Qed.

Lemma read_info_raise (e : exn) (l : info_locals) :
  read_info (Raise e) l = (Raise e, l).
Proof. reflexivity. Qed.

Lemma read_info_ok (line : string) :
  exists token,
    last (Py.split " " (Py.strip line)) = Some token /\
    read_info (Ok line) info_defaults =
    (Ok tt, {| function_name := Py.path_stem token;
               label := inferred (Py.path_stem token) |}).
Proof.
  destruct (last_item_split " " (Py.strip line)) as [token Htok].
  exists token. unfold Py.last_item in Htok.
  destruct (last (Py.split " " (Py.strip line))) as [x|] eqn:E;
    [|discriminate]. injection Htok as ->. split; [reflexivity|].
  unfold read_info, bind, lift, Py.last_item. rewrite E. simpl.
  rewrite infer_label_run, inferred_eq. reflexivity.
Qed.

Lemma name_of_read (line : string) :
  fst (try_except (read_info (Ok line)) info_defaults) = Ok tt /\
  snd (try_except (read_info (Ok line)) info_defaults) =
  {| function_name := name_of (Some (Ok line));
     label := inferred (name_of (Some (Ok line))) |}.
Proof.
  destruct (read_info_ok line) as [token [Hlast Hrun]].
  unfold try_except, name_of. rewrite Hrun, Hlast. split; reflexivity.
Qed.

(** The reader as a function of what [exists] answers and the file gives. *)
Lemma extract_info_and_label_eq (fs : FileSystem) (d : string) :
  extract_info_and_label fs d =
  and_then (info_file (run_dir fs d))
           (fun info => Ok (name_of info, inferred (name_of info))).
Proof.
  unfold extract_info_and_label.
  destruct (info_file (run_dir fs d)) as [[[line|e]|]|e]; try reflexivity.
  cbn [and_then]. destruct (name_of_read line) as [H1 H2].
  destruct (try_except (read_info (Ok line)) info_defaults) as [[[]|e] l];
    cbn [fst snd] in H1, H2; [|discriminate]. now subst l.
Qed.

(** ** The metric extractor *)

Lemma assign_loop (r : string -> pyval) (selected : list string) :
  forall (pre : list pyval) (l : stats_locals),
    for_each (zip (seq (length pre) (length selected)) selected)
             (assign_metric (pre ++ map r selected)) l =
    (Ok tt, {| stats := updated_stats r selected (stats l);
               warnings_count := warnings_count l |}).
Proof.
  induction selected as [|c sel IH]; intros pre l.
  - destruct l; reflexivity.
  - cbn [length seq zip zip_with for_each map].
    unfold bind at 1. unfold assign_metric at 1.
    unfold bind, lift, getitem, set_stat, modify. cbn [fst snd].
    rewrite list_lookup_middle by reflexivity.
    specialize (IH (pre ++ [r c])%list).
    rewrite length_app, Nat.add_1_r, <- app_assoc in IH.
    cbn [app] in IH. rewrite IH. reflexivity.
Qed.

Lemma lookup_updated_stats (r : string -> pyval) (selected : list string) :
  forall (m : gmap string pyval) (key : string),
    updated_stats r selected m !! key =
    if mem key selected then Some (none_to_zero (r key)) else m !! key.
Proof.
  unfold updated_stats.
  induction selected as [|c sel IH]; intros m key; [reflexivity|].
  cbn [foldl]. rewrite IH. unfold mem. cbn [existsb].
  fold (mem key sel). destruct (mem key sel); [now rewrite orb_true_r|].
  rewrite orb_false_r. destruct (String.eqb key c) eqn:E.
  - apply String.eqb_eq in E. subst. apply lookup_insert_eq.
  - apply String.eqb_neq in E. apply lookup_insert_ne. congruence.
Qed.

Lemma lookup_initial_stats (key : string) :
  initial_stats !! key = if mem key FEATURE_COLUMNS then Some (PyInt 0) else None.
Proof.
  change initial_stats
    with (updated_stats (fun _ => PyInt 0) FEATURE_COLUMNS ∅).
  rewrite lookup_updated_stats. reflexivity.
Qed.

Lemma selected_are_columns (cs names : list string) :
  forallb (fun c => mem c cs)
          (List.filter (fun col => mem col cs) names) = true.
Proof.
  apply forallb_forall. intros x Hx. apply filter_In in Hx. tauto.
Qed.

(** The two ways [read_stats] ends without touching [stats]: a call
    raised, or there was nothing to assign. [Hl] is the eta-expansion of
    the locals. *)
Ltac call_raised Hl :=
  exists (Raise DatabaseError); rewrite <- Hl; split; [reflexivity | reflexivity].
Ltac nothing_assigned Hl :=
  exists (Ok tt); rewrite <- Hl; split; [reflexivity | discriminate].

(** What the first [try] block leaves behind: the assignments of
    [store_row], and nothing at all when a call raised. *)
Lemma read_stats_run (st : StatsStore) (l : stats_locals) :
  exists res,
    read_stats st l =
    (res, {| stats := match store_row st with
                      | Some (selected, r) => updated_stats r selected (stats l)
                      | None => stats l
                      end;
             warnings_count := warnings_count l |}) /\
    (forall e, res = Raise e -> store_row st = None).
Proof.
  assert (Hl : l = {| stats := stats l; warnings_count := warnings_count l |})
    by (destruct l; reflexivity).
  unfold read_stats, store_row, sqlite3_connect, query_table_names,
    query_table_info, query_first_row, guard_call, bind, lift, ret.
  destruct (fails st Connect); cbn [orb]; [call_raised Hl|].
  destruct (fails st ListTables); [call_raised Hl|].
  destruct (mem "stats" (map fst (tables st))); [|nothing_assigned Hl].
  destruct (fails st TableInfo); [call_raised Hl|].
  destruct (find_table st "stats") as [t|]; [|nothing_assigned Hl].
  pose proof (selected_are_columns (columns t) FEATURE_COLUMNS) as Hsel.
  destruct (List.filter (fun col => mem col (columns t)) FEATURE_COLUMNS)
    as [|c sel] eqn:Esel; [nothing_assigned Hl|].
  destruct (fails st SelectRow); [call_raised Hl|].
  rewrite Hsel.
  destruct (head (rows t)) as [r|]; [|nothing_assigned Hl].
  exists (Ok tt). split; [|discriminate].
  cbn [fmap option_fmap option_map map]. unfold enumerate.
  exact (assign_loop r (c :: sel) [] l).
Qed.

Lemma comprehension_get_stat (g : string -> pyval) (l : stats_locals) :
  forall keys : list string,
    (forall key, key ∈ keys -> stats l !! key = Some (g key)) ->
    comprehension keys get_stat l = (Ok (map g keys), l).
Proof.
  induction keys as [|k keys IH]; intros H; [reflexivity|].
  cbn [comprehension map]. unfold bind at 1. unfold get_stat at 1.
  rewrite (H k) by apply list_elem_of_here.
  unfold bind at 1. rewrite IH; [reflexivity|].
  intros key Hkey. apply H. now apply list_elem_of_further.
Qed.

(** What [extract_stats] leaves for a run directory that can be searched:
    the metric of every fixed column, in order, followed by the warning
    count. *)
Lemma extract_stats_body_searchable
    (info : option (result string)) (store : option StatsStore)
    (log : option (result (list string))) :
  fst (extract_stats_body (Searchable info store log) stats_defaults) =
  Ok (map (metric_value store) FEATURE_COLUMNS
      ++ [PyInt (warnings_value log)])%list.
Proof.
  unfold extract_stats_body, metric_value, warnings_value.
  unfold bind at 1. cbn [lift stats_file].
  assert (Hstats : exists l1,
    (match store with
     | Some st => try_except (read_stats st)
     | None => ret tt
     end) stats_defaults = (Ok tt, l1) /\
    warnings_count l1 = 0 /\
    forall key, key ∈ FEATURE_COLUMNS ->
      stats l1 !! key =
      Some (match store with
            | Some st =>
                match store_row st with
                | Some (selected, r) =>
                    if mem key selected then none_to_zero (r key) else PyInt 0
                | None => PyInt 0
                end
            | None => PyInt 0
            end)).
  { destruct store as [st|].
    - destruct (read_stats_run st stats_defaults) as [res [Hrun _]].
      unfold try_except. rewrite Hrun. eexists. split.
      + destruct res as [[]|]; reflexivity.
      + split; [reflexivity|]. intros key Hkey. cbn [stats].
        apply mem_true_iff in Hkey.
        destruct (store_row st) as [[selected r]|].
        * rewrite lookup_updated_stats.
          destruct (mem key selected); [reflexivity|].
          cbn [stats_defaults stats]. rewrite lookup_initial_stats, Hkey.
          reflexivity.
        * cbn [stats_defaults stats]. rewrite lookup_initial_stats, Hkey.
          reflexivity.
    - exists stats_defaults. split; [reflexivity|]. split; [reflexivity|].
      intros key Hkey. apply mem_true_iff in Hkey.
      cbn [stats_defaults stats]. rewrite lookup_initial_stats, Hkey.
      reflexivity. }
  destruct Hstats as [l1 [Hrun1 [Hw1 Hlook1]]].
  unfold bind at 1. rewrite Hrun1.
  unfold bind at 1. cbn [lift warnings_file].
  assert (Hwarn : exists l2,
    (match log with
     | Some f => try_except (do lines <- lift f;
                             set_warnings_count (count_warnings lines))
     | None => ret tt
     end) l1 = (Ok tt, l2) /\
    stats l2 = stats l1 /\
    warnings_count l2 = match log with
                        | Some (Ok lines) => count_warnings lines
                        | _ => 0
                        end).
  { destruct log as [[lines|e]|].
    - eexists. split; [reflexivity|]. split; reflexivity.
    - exists l1. split; [reflexivity|]. split; [reflexivity | exact Hw1].
    - exists l1. split; [reflexivity|]. split; [reflexivity | exact Hw1]. }
  destruct Hwarn as [l2 [Hrun2 [Hs2 Hw2]]].
  unfold bind at 1. rewrite Hrun2.
  unfold bind at 1.
  rewrite (comprehension_get_stat
             (fun key => match store with
                         | Some st =>
                             match store_row st with
                             | Some (selected, r) =>
                                 if mem key selected
                                 then none_to_zero (r key) else PyInt 0
                             | None => PyInt 0
                             end
                         | None => PyInt 0
                         end)).
  - unfold bind, gets, ret. cbn [fst]. rewrite Hw2. reflexivity.
  - intros key Hkey. rewrite Hs2. now apply Hlook1.
Qed.

(** [extract_stats] as a function of the run directory: it raises what
    [exists] raises, and nothing else. *)
Lemma extract_stats_eq (fs : FileSystem) (d : string) :
  extract_stats fs d =
  match run_dir fs d with
  | Unsearchable e => Raise (e "run.stats")
  | Searchable _ store log =>
      Ok (map (metric_value store) FEATURE_COLUMNS
          ++ [PyInt (warnings_value log)])%list
  end.
Proof.
  unfold extract_stats. destruct (run_dir fs d) as [e|info store log].
  - reflexivity.
  - apply extract_stats_body_searchable.
Qed.

(** ** The assembler *)

Lemma append_row_run (fs : FileSystem) (d : string)
    (features : list (list pyval)) :
  append_row fs d features =
  match row_of d (run_dir fs d) with
  | Ok row => (Ok tt, (features ++ [row])%list)
  | Raise e => (Raise e, features)
  end.
Proof.
  unfold append_row, bind, lift, modify.
  rewrite extract_info_and_label_eq, extract_stats_eq.
  destruct (run_dir fs d) as [e|info store log]; [reflexivity|].
  cbn [info_file and_then row_of fst snd]. now rewrite <- app_assoc.
Qed.

Lemma loop_run (fs : FileSystem) (dirs : list string) :
  forall features : list (list pyval),
    match rows_of fs dirs with
    | Ok rs =>
        for_each dirs (append_row fs) features = (Ok tt, (features ++ rs)%list)
    | Raise e =>
        fst (for_each dirs (append_row fs) features) = Raise e
    end.
Proof.
  unfold rows_of.
  induction dirs as [|d dirs IH]; intros features;
    cbn [for_each collect_each].
  - unfold ret. now rewrite app_nil_r.
  - unfold bind. rewrite append_row_run.
    destruct (row_of d (run_dir fs d)) as [row|e]; cbn [and_then];
      [|reflexivity].
    specialize (IH (features ++ [row])%list).
    destruct (collect_each (fun d0 => row_of d0 (run_dir fs d0)) dirs)
      as [rs|e]; cbn [and_then].
    + rewrite IH. now rewrite <- app_assoc.
    + exact IH.
Qed.

(** [main] as a function of what the enumerator returns. *)
Lemma main_eq (fs : FileSystem) :
  main fs =
  match collect_klee_outputs fs with
  | Raise e => Uncaught e
  | Ok [] => Finished None
  | Ok ((_ :: _) as out_dirs) => assemble fs out_dirs
  end.
Proof.
  unfold main, assemble.
  destruct (collect_klee_outputs fs) as [[|d dirs]|e]; try reflexivity.
  pose proof (loop_run fs (d :: dirs) [header]) as Hloop.
  destruct (rows_of fs (d :: dirs)) as [rs|e].
  - rewrite Hloop. reflexivity.
  - destruct (for_each (d :: dirs) (append_row fs) [header]) as [[u|e'] fe];
      cbn [fst] in Hloop; [discriminate|]. now injection Hloop as ->.
Qed.

(** The enumerator when every test of the comprehension answers. *)
Lemma keep_if_answers {A} (test : A -> result bool) (f : A -> bool)
    (xs : list A) :
  (forall x, x ∈ xs -> test x = Ok (f x)) ->
  keep_if test xs = Ok (List.filter f xs).
Proof.
  induction xs as [|x xs IH]; intros H; [reflexivity|].
  cbn [keep_if List.filter].
  rewrite (H x) by apply list_elem_of_here. cbn [and_then].
  rewrite IH by (intros y Hy; apply H; now apply list_elem_of_further).
  cbn [and_then]. now destruct (f x).
Qed.

Lemma collect_each_answers {A B} (f : A -> result B) (g : A -> B)
    (xs : list A) :
  (forall x, x ∈ xs -> f x = Ok (g x)) ->
  collect_each f xs = Ok (map g xs).
Proof.
  induction xs as [|x xs IH]; intros H; [reflexivity|].
  cbn [collect_each map].
  rewrite (H x) by apply list_elem_of_here. cbn [and_then].
  rewrite IH by (intros y Hy; apply H; now apply list_elem_of_further).
  reflexivity.
Qed.



Lemma collect_each_raises {A B} (f : A -> result B) (xs : list A)
    (x : A) (e : exn) :
  x ∈ xs -> f x = Raise e ->
  exists e', collect_each f xs = Raise e'.
Proof.
  induction xs as [|x0 xs IH]; intros Hx Hf.
  - now apply elem_of_nil in Hx.
  - cbn [collect_each]. apply elem_of_cons in Hx as [->|Hx].
    + rewrite Hf. now exists e.
    + destruct (f x0) as [y0|e0]; [|now exists e0]. cbn [and_then].
      destruct (IH Hx Hf) as [e' ->]. now exists e'.
Qed.

Lemma answers_is_run_dir (fs : FileSystem) (entries : list string) :
  (forall d, d ∈ entries -> exists b, is_dir fs d = Ok b) ->
  forall d, d ∈ entries -> is_klee_output fs d = Ok (is_run_dir fs d).
Proof.
  intros H d Hd. unfold is_klee_output, is_run_dir.
  destruct (H d Hd) as [b ->]. reflexivity.
Qed.

Lemma collect_klee_outputs_eq (fs : FileSystem) (entries : list string) :
  iterdir fs = Ok entries ->
  (forall d, d ∈ entries -> exists b, is_dir fs d = Ok b) ->
  collect_klee_outputs fs =
  Ok (sorted (List.filter (is_run_dir fs) entries)).
Proof.
  intros Hls Hdir. unfold collect_klee_outputs. rewrite Hls.
  cbn [and_then].
  rewrite (keep_if_answers _ (is_run_dir fs))
    by now apply answers_is_run_dir.
  reflexivity.
Qed.

(** ** Sorting *)

Lemma ltb_true_le (x y : string) : String.ltb x y = true -> String.le x y.
Proof.
  unfold String.le, String.ltb, String.leb.
  destruct (String.compare x y); simpl; intros H;
    [discriminate H | exact I | discriminate H].
Qed.

Lemma ltb_false_le (x y : string) : String.ltb x y = false -> String.le y x.
Proof.
  unfold String.le, String.ltb, String.leb.
  rewrite (String.compare_antisym y x).
  destruct (String.compare x y); simpl; intros H;
    [exact I | discriminate H | exact I].
Qed.

Lemma insert_sorted_perm (x : string) (xs : list string) :
  insert_sorted x xs ≡ₚ x :: xs.
Proof.
  induction xs as [|y ys IH]; simpl; [reflexivity|].
  destruct (String.ltb y x); [|reflexivity].
  rewrite IH. apply Permutation_swap.
Qed.

Lemma sorted_perm (xs : list string) : sorted xs ≡ₚ xs.
Proof.
  induction xs as [|x xs IH]; simpl; [reflexivity|].
  now rewrite insert_sorted_perm, IH.
Qed.

Lemma insert_sorted_HdRel (a x : string) (xs : list string) :
  String.le a x -> HdRel String.le a xs ->
  HdRel String.le a (insert_sorted x xs).
Proof.
  intros Hax Hhd. destruct xs as [|y ys]; simpl; [now constructor|].
  destruct (String.ltb y x); constructor; [|exact Hax].
  now inversion Hhd.
Qed.

Lemma insert_sorted_Sorted (x : string) (xs : list string) :
  Sorted String.le xs -> Sorted String.le (insert_sorted x xs).
Proof.
  induction xs as [|y ys IH]; intros Hs; simpl.
  - repeat constructor.
  - inversion Hs as [|? ? Hys Hhd]; subst.
    destruct (String.ltb y x) eqn:E.
    + constructor; [now apply IH|].
      apply insert_sorted_HdRel; [now apply ltb_true_le | exact Hhd].
    + constructor; [exact Hs|]. constructor. now apply ltb_false_le.
Qed.

Lemma sorted_Sorted (xs : list string) : Sorted String.le (sorted xs).
Proof.
  induction xs as [|x xs IH]; simpl; [constructor|].
  now apply insert_sorted_Sorted.
Qed.

(** The sorted list does not depend on the order in which the directory
    was listed. *)
Lemma sorted_of_permutation (xs ys : list string) :
  xs ≡ₚ ys -> sorted xs = sorted ys.
Proof.
  intros Hperm. apply (Sorted_unique String.le); try apply sorted_Sorted.
  now rewrite !sorted_perm.
Qed.

Lemma filter_same_permutation (f : string -> bool) (xs ys : list string) :
  xs ≡ₚ ys -> List.filter f xs ≡ₚ List.filter f ys.
Proof.
  intros Hperm. induction Hperm as [|x xs ys _ IH|x y xs|xs ys zs _ IH1 _ IH2].
  - reflexivity.
  - simpl. destruct (f x); now rewrite IH.
  - simpl. destruct (f x), (f y); try reflexivity. apply Permutation_swap.
  - now rewrite IH1.
Qed.

Lemma filter_of_permutation (f g : string -> bool) (xs ys : list string) :
  xs ≡ₚ ys -> (forall x, x ∈ xs -> f x = g x) ->
  List.filter f xs ≡ₚ List.filter g ys.
Proof.
  intros Hperm Hfg.
  rewrite (filter_ext_in f g xs)
    by (intros x Hx; apply Hfg; now apply list_elem_of_In).
  now apply filter_same_permutation.
Qed.

(** ** Evaluation on the sample root *)

Example sample_out_dirs :
  collect_klee_outputs Sample.fs =
  Ok ["klee-out-0"; "klee-out-1"; "klee-out-2"; "klee-out-3"; "klee-out-4"].
Proof. reflexivity. Qed.

Example sample_rows :
  saved_rows (main Sample.fs) =
  [ [PyStr "klee-out-0"; PyStr "CWE190_x_bad"; PyInt 1200; PyInt 0; PyInt 0;
     PyInt 0; PyInt 0; PyInt 0; PyInt 0; PyInt 0; PyInt 35; PyInt 0; PyInt 0;
     PyInt 2; PyInt 1];
    [PyStr "klee-out-1"; PyStr "CWE190_x_good"; PyInt 0; PyInt 0; PyInt 0;
     PyInt 0; PyInt 0; PyInt 0; PyInt 0; PyInt 0; PyInt 0; PyInt 0; PyInt 0;
     PyInt 2; PyInt 0];
    [PyStr "klee-out-2"; PyStr "CWE121_y_bad"; PyInt 0; PyInt 0; PyInt 0;
     PyInt 0; PyInt 0; PyInt 0; PyInt 0; PyInt 0; PyInt 0; PyInt 0; PyInt 0;
     PyInt 2; PyInt 1];
    [PyStr "klee-out-3"; PyStr "unknown_z"; PyInt 0; PyInt 0; PyInt 0;
     PyInt 0; PyInt 0; PyInt 0; PyInt 0; PyInt 0; PyInt 0; PyInt 0; PyInt 0;
     PyInt 2; PyInt (-1)];
    [PyStr "klee-out-4"; PyStr "unknown"; PyInt 0; PyInt 0; PyInt 0;
     PyInt 0; PyInt 0; PyInt 0; PyInt 0; PyInt 0; PyInt 0; PyInt 0; PyInt 0;
     PyInt 0; PyInt (-1)] ].
Proof. vm_compute. reflexivity. Qed.

Example broken_store_raises :
  fst (read_stats Sample.broken_store stats_defaults) = Raise DatabaseError.
Proof. reflexivity. Qed.

Example null_metric_of_sample_store :
  metric_at FEATURE_COLUMNS
    (map (metric_value (Some Sample.store)) FEATURE_COLUMNS)
    "FullBranches" = Some (PyInt 0).
Proof. vm_compute. reflexivity. Qed.

Example empty_root_writes_nothing :
  main {| exists_root := Ok true;
          iterdir := Ok ["notes.txt"]; is_dir := fun _ => Ok false;
          run_dir := fun _ => Sample.bare; open_output := Ok tt;
          writerows_fault := Sample.no_fault |}
  = Finished None.
Proof. reflexivity. Qed.

Example root_that_is_a_file :
  main {| exists_root := Ok true;
          iterdir := Raise (NotADirectoryError "results");
          is_dir := fun _ => Ok false;
          run_dir := fun _ => Sample.bare; open_output := Ok tt;
          writerows_fault := Sample.no_fault |}
  = Uncaught (NotADirectoryError "results").
Proof. reflexivity. Qed.

Example stem_of_bitcode_path :
  Py.path_stem "../results/CWE190_x_good.bc" = "CWE190_x_good".
Proof. reflexivity. Qed.

Example stem_keeps_inner_dots : Py.path_stem "a/b.tar.gz" = "b.tar".
Proof. reflexivity. Qed.

Example stem_of_hidden_file : Py.path_stem ".bashrc" = ".bashrc".
Proof. reflexivity. Qed.

Example split_keeps_empty_fields :
  Py.split " " (Py.strip "  klee  a.bc ") = ["klee"; ""; "a.bc"].
Proof. reflexivity. Qed.

Example sorted_is_lexicographic :
  sorted ["klee-out-2"; "klee-out-10"; "klee-out-1"] =
  ["klee-out-1"; "klee-out-10"; "klee-out-2"].
Proof. reflexivity. Qed.

(** ** Rows *)

Lemma Forall_map_all {A B} (P : B -> Prop) (f : A -> B) (xs : list A) :
  (forall x, P (f x)) -> Forall P (map f xs).
Proof. intros H. induction xs; constructor; auto. Qed.







Lemma rows_of_unsearchable (fs : FileSystem) (dirs : list string)
    (d : string) (e : string -> exn) :
  d ∈ dirs -> run_dir fs d = Unsearchable e ->
  exists e', rows_of fs dirs = Raise e'.
Proof.
  intros Hd Hrd. apply (collect_each_raises _ dirs d (e "info") Hd).
  now rewrite Hrd.
Qed.


Lemma rows_of_ext (fs1 fs2 : FileSystem) (dirs : list string) :
  (forall d, d ∈ dirs -> run_dir fs1 d = run_dir fs2 d) ->
  rows_of fs1 dirs = rows_of fs2 dirs.
Proof.
  unfold rows_of. induction dirs as [|d dirs IH]; intros H; [reflexivity|].
  cbn [collect_each]. rewrite (H d) by apply list_elem_of_here.
  rewrite IH by (intros d' Hd'; apply H; now apply list_elem_of_further).
  reflexivity.
Qed.



Lemma extract_info_and_label_searchable (fs : FileSystem) (d : string) :
  searchable (run_dir fs d) ->
  exists info,
    info_file (run_dir fs d) = Ok info /\
    extract_info_and_label fs d = Ok (name_of info, inferred (name_of info)).
Proof.
  intros Hs. rewrite extract_info_and_label_eq.
  destruct (run_dir fs d) as [e|info store log]; [contradiction|].
  exists info. split; reflexivity.
Qed.

Lemma extract_info_and_label_returned (fs : FileSystem) (d name : string)
    (lbl : Z) :
  extract_info_and_label fs d = Ok (name, lbl) ->
  exists info,
    info_file (run_dir fs d) = Ok info /\ name = name_of info /\
    lbl = inferred name.
Proof.
  rewrite extract_info_and_label_eq.
  destruct (info_file (run_dir fs d)) as [info|e]; [|discriminate].
  intros [= <- <-]. now exists info.
Qed.

(** ** The claims *)

(** C1: for every identifier, the label inferred is 1 when the identifier
    contains the marker [_bad] (also when it contains [_good] as well),
    otherwise 0 when it contains the marker [_good], otherwise -1; the
    label [extract_info_and_label] returns is always the one inferred from
    the name it returns, and it returns whenever the run directory can be
    searched. *)
Theorem label_follows_markers :
  (forall name : string,
     (Substring "_bad" name -> inferred name = 1) /\
     (~ Substring "_bad" name -> Substring "_good" name -> inferred name = 0) /\
     (~ Substring "_bad" name -> ~ Substring "_good" name ->
      inferred name = -1)) /\
  (forall (fs : FileSystem) (d name : string) (lbl : Z),
     extract_info_and_label fs d = Ok (name, lbl) -> lbl = inferred name) /\
  (forall (fs : FileSystem) (d : string),
     searchable (run_dir fs d) ->
     exists name, extract_info_and_label fs d = Ok (name, inferred name)).
Proof.
  split; [|split].
  - intros name. rewrite inferred_eq.
    destruct (Py.contains "_bad" name) eqn:Ebad.
    + apply contains_true_iff in Ebad. repeat split; tauto.
    + apply contains_false_iff in Ebad.
      destruct (Py.contains "_good" name) eqn:Egood.
      * apply contains_true_iff in Egood. repeat split; tauto.
      * apply contains_false_iff in Egood. repeat split; tauto.
  - intros fs d name lbl H.
    destruct (extract_info_and_label_returned fs d name lbl H)
      as [info [_ [_ Hlbl]]]. exact Hlbl.
  - intros fs d Hs.
    destruct (extract_info_and_label_searchable fs d Hs) as [info [_ H]].
    now exists (name_of info).
Qed.

(** C8: when the results root does not exist, the enumerator raises
    [FileNotFoundError] for the root, nobody catches it, and [main] ends
    there: no row is assembled and no dataset is written. *)
Theorem missing_root_is_fatal (fs : FileSystem) :
  iterdir fs = Raise (FileNotFoundError RESULTS_DIR) ->
  collect_klee_outputs fs = Raise (FileNotFoundError RESULTS_DIR) /\
  main fs = Uncaught (FileNotFoundError RESULTS_DIR) /\
  saved_rows (main fs) = [].
Proof.
  intros Hroot. rewrite main_eq. unfold collect_klee_outputs.
  rewrite Hroot. repeat split.
Qed.

Lemma missing_root_is_fatal_sample :
  iterdir Sample.fs_no_root = Raise (FileNotFoundError "results") /\
  main Sample.fs_no_root = Uncaught (FileNotFoundError "results").
Proof.
  split; [reflexivity|].
  exact (proj1 (proj2 (missing_root_is_fatal Sample.fs_no_root eq_refl))).
Defined.

Lemma blank_line_gives_empty_name (line : string) :
  Py.strip line = "" -> name_of (Some (Ok line)) = "".
Proof. intros H. unfold name_of. now rewrite H. Qed.

(** C9, at the inputs where the code departs from it. A run directory whose
    [info] file is empty gets a row whose name cell is the empty string,
    and so does every run whose first line is blank; a run directory that
    cannot be searched gets no row at all, because [main] ends with the
    exception that [exists] raises. *)
Theorem blank_metadata_gives_an_empty_name_cell :
  info_file (run_dir Sample.fs_empty_info "klee-out-0") = Ok (Some (Ok "")) /\
  saved_rows (main Sample.fs_empty_info) =
  [ [PyStr "klee-out-0"; PyStr ""; PyInt 0; PyInt 0; PyInt 0; PyInt 0;
     PyInt 0; PyInt 0; PyInt 0; PyInt 0; PyInt 0; PyInt 0; PyInt 0; PyInt 0;
     PyInt (-1)] ] /\
  (forall (fs : FileSystem) (d line : string),
     info_file (run_dir fs d) = Ok (Some (Ok line)) -> Py.strip line = "" ->
     extract_info_and_label fs d = Ok ("", -1) /\
     forall features, exists stat_values,
       append_row fs d features =
       (Ok tt, (features ++ [PyStr d :: PyStr "" :: stat_values
                             ++ [PyInt (-1)]])%list)) /\
  info_file (run_dir Sample.fs_unsearchable "klee-out-1") =
    Raise (PermissionError "results/klee-out-1/info") /\
  extract_info_and_label Sample.fs_unsearchable "klee-out-1" =
    Raise (PermissionError "results/klee-out-1/info") /\
  main Sample.fs_unsearchable =
    Uncaught (PermissionError "results/klee-out-1/info") /\
  saved_rows (main Sample.fs_unsearchable) = [].
Proof.
  split; [reflexivity|]. split; [vm_compute; reflexivity|].
  split; [|repeat split].
  intros fs d line Hinfo Hblank.
  assert (Hname : extract_info_and_label fs d = Ok ("", -1)).
  { rewrite extract_info_and_label_eq, Hinfo. cbn [and_then].
    now rewrite (blank_line_gives_empty_name line Hblank). }
  split; [exact Hname|]. intros features.
  rewrite append_row_run.
  destruct (run_dir fs d) as [e|info store log]; [discriminate|].
  cbn [info_file] in Hinfo. injection Hinfo as ->.
  cbn [row_of]. rewrite (blank_line_gives_empty_name line Hblank).
  exists (map (metric_value store) FEATURE_COLUMNS
          ++ [PyInt (warnings_value log)])%list.
  rewrite <- app_assoc. reflexivity.
Qed.

(** C2, at the inputs where the code departs from it. On the sample root
    with one run directory that cannot be searched, five run directories
    are enumerated and [main] ends with the [PermissionError] that [exists]
    raises, having written nothing; so does every root with such a run
    directory among those enumerated. And when the write is cut short,
    fewer rows than run directories are left in the file. *)
Theorem unsearchable_run_stops_every_row :
  collect_klee_outputs Sample.fs_unsearchable =
    Ok ["klee-out-0"; "klee-out-1"; "klee-out-2"; "klee-out-3";
        "klee-out-4"] /\
  main Sample.fs_unsearchable =
    Uncaught (PermissionError "results/klee-out-1/info") /\
  saved_rows (main Sample.fs_unsearchable) = [] /\
  (forall (fs : FileSystem) (out_dirs : list string) (d : string)
          (e : string -> exn),
     collect_klee_outputs fs = Ok out_dirs -> d ∈ out_dirs ->
     run_dir fs d = Unsearchable e ->
     (exists e', main fs = Uncaught e') /\ saved_rows (main fs) = []) /\
  collect_klee_outputs Sample.fs_unencodable =
    Ok ["klee-out-0"; "klee-out-1"; "klee-out-2"; "klee-out-3";
        "klee-out-4"] /\
  (exists partial,
     main Sample.fs_unencodable =
       WriteAborted UnicodeEncodeError (OUTPUT_CSV, partial) /\
     map head partial =
       [Some (PyStr "klee_dir_name"); Some (PyStr "klee-out-0");
        Some (PyStr "klee-out-1")]) /\
  length (saved_rows (main Sample.fs_unencodable)) = 2%nat.
Proof.
  split; [reflexivity|]. split; [reflexivity|]. split; [reflexivity|].
  split.
  { intros fs out_dirs d e Hc Hd Hrd. rewrite main_eq, Hc.
    destruct out_dirs as [|d0 dirs]; [now apply elem_of_nil in Hd|].
    unfold assemble.
    destruct (rows_of_unsearchable fs (d0 :: dirs) d e Hd Hrd) as [e' ->].
    split; [now exists e' | reflexivity]. }
  split; [reflexivity|].
  split; [|vm_compute; reflexivity].
  eexists. split; vm_compute; reflexivity.
Qed.


Lemma none_to_zero_not_none (v : pyval) : none_to_zero v <> PyNone.
Proof. destruct v; discriminate. Qed.

Lemma metric_value_not_none (store : option StatsStore) (key : string) :
  metric_value store key <> PyNone.
Proof.
  unfold metric_value. destruct store as [st|]; [|discriminate].
  destruct (store_row st) as [[selected r]|]; [|discriminate].
  destruct (mem key selected); [apply none_to_zero_not_none | discriminate].
Qed.




(** C3, at the input where the code departs from it. For a run directory
    that cannot be searched, [extract_stats] raises what [exists] raises on
    the store (line 31) instead of returning zeros; the row of the run is
    not appended, because the loop of [main] has met the same failure one
    call earlier (line 78), and [main] ends there. The same holds for every
    run directory for which [exists] raises. *)
Theorem unsearchable_run_has_no_feature_vector :
  stats_file (run_dir Sample.fs_unsearchable "klee-out-1") =
    Raise (PermissionError "results/klee-out-1/run.stats") /\
  extract_stats Sample.fs_unsearchable "klee-out-1" =
    Raise (PermissionError "results/klee-out-1/run.stats") /\
  append_row Sample.fs_unsearchable "klee-out-1" [header] =
    (Raise (PermissionError "results/klee-out-1/info"), [header]) /\
  main Sample.fs_unsearchable =
    Uncaught (PermissionError "results/klee-out-1/info") /\
  (forall (fs : FileSystem) (d : string) (e : exn),
     stats_file (run_dir fs d) = Raise e ->
     extract_stats fs d = Raise e /\
     forall features, exists e',
       append_row fs d features = (Raise e', features)).
Proof.
  split; [reflexivity|]. split; [reflexivity|]. split; [reflexivity|].
  split; [reflexivity|]. intros fs d e H. split.
  - rewrite extract_stats_eq.
    destruct (run_dir fs d) as [e'|info store log]; [|discriminate].
    cbn [stats_file] in H. now injection H as ->.
  - intros features. rewrite append_row_run.
    destruct (run_dir fs d) as [e'|info store log]; [|discriminate].
    now exists (e' "info").
Qed.

(** C4, at the inputs where the code departs from it. For an [info] file
    with empty content nothing raises and the reader returns the empty
    name, not the placeholder, although the demonstration script, which
    reads the name in the same way, drops an empty name as no name at all;
    no first line is treated as malformed: whatever the line, the name is
    the stem of its last token; and for a run directory that cannot be
    searched the reader raises what [exists] raises (line 78), and [main]
    ends with it. *)
Theorem metadata_reader_returns_empty_name_and_raises :
  info_file (run_dir Sample.fs_empty_info "klee-out-0") = Ok (Some (Ok "")) /\
  extract_info_and_label Sample.fs_empty_info "klee-out-0" = Ok ("", -1) /\
  extract_info_and_label Sample.fs_empty_info "klee-out-0"
    <> Ok ("unknown", -1) /\
  Automate.get_function_name_from_info_file Sample.fs_empty_info "klee-out-0"
    = Ok (Some "") /\
  Automate.function_names Sample.fs_empty_info ["klee-out-0"] = Ok [] /\
  (forall (fs : FileSystem) (d line : string),
     info_file (run_dir fs d) = Ok (Some (Ok line)) ->
     exists token,
       last (Py.split " " (Py.strip line)) = Some token /\
       extract_info_and_label fs d =
       Ok (Py.path_stem token, inferred (Py.path_stem token))) /\
  extract_info_and_label Sample.fs_unsearchable "klee-out-1" =
    Raise (PermissionError "results/klee-out-1/info") /\
  main Sample.fs_unsearchable =
    Uncaught (PermissionError "results/klee-out-1/info") /\
  (forall (fs : FileSystem) (d : string) (e : exn),
     info_file (run_dir fs d) = Raise e ->
     extract_info_and_label fs d = Raise e).
Proof.
  split; [reflexivity|]. split; [reflexivity|]. split; [discriminate|].
  split; [reflexivity|]. split; [reflexivity|].
  split.
  { intros fs d line Hinfo.
    destruct (read_info_ok line) as [token [Hlast _]].
    exists token. split; [exact Hlast|].
    rewrite extract_info_and_label_eq, Hinfo. cbn [and_then].
    unfold name_of. now rewrite Hlast. }
  split; [reflexivity|]. split; [reflexivity|].
  intros fs d e Hinfo. rewrite extract_info_and_label_eq, Hinfo. reflexivity.
Qed.

Lemma out_dirs_listed (fs : FileSystem) (out_dirs : list string) (d : string) :
  collect_klee_outputs fs = Ok out_dirs -> d ∈ out_dirs -> listed fs d.
Proof.
  unfold collect_klee_outputs, listed.
  destruct (iterdir fs) as [entries|e]; [|discriminate]. cbn [and_then].
  destruct (keep_if (is_klee_output fs) entries) as [kept|e] eqn:E;
    [|discriminate].
  cbn [and_then]. intros [= <-] Hd. rewrite sorted_perm in Hd.
  revert kept E Hd. induction entries as [|x xs IH]; intros kept E Hd;
    cbn [keep_if] in E.
  - injection E as <-. now apply elem_of_nil in Hd.
  - destruct (is_klee_output fs x) as [keep|e]; [|discriminate].
    cbn [and_then] in E.
    destruct (keep_if (is_klee_output fs) xs) as [rest|e]; [|discriminate].
    cbn [and_then] in E. injection E as <-.
    destruct keep.
    + apply elem_of_cons in Hd as [->|Hd]; [apply list_elem_of_here|].
      apply list_elem_of_further. exact (IH rest eq_refl Hd).
    + apply list_elem_of_further. exact (IH rest eq_refl Hd).
Qed.

Lemma keep_if_ext {A} (f g : A -> result bool) (xs : list A) :
  (forall x, x ∈ xs -> f x = g x) -> keep_if f xs = keep_if g xs.
Proof.
  induction xs as [|x xs IH]; intros H; [reflexivity|].
  cbn [keep_if]. rewrite (H x) by apply list_elem_of_here.
  rewrite IH by (intros y Hy; apply H; now apply list_elem_of_further).
  reflexivity.
Qed.

Lemma is_klee_output_ext (fs1 fs2 : FileSystem) (d : string) :
  is_dir fs1 d = is_dir fs2 d -> is_klee_output fs1 d = is_klee_output fs2 d.
Proof. unfold is_klee_output. now intros ->. Qed.

Lemma is_run_dir_ext (fs1 fs2 : FileSystem) (d : string) :
  is_dir fs1 d = is_dir fs2 d -> is_run_dir fs1 d = is_run_dir fs2 d.
Proof. unfold is_run_dir. now intros ->. Qed.

(** C5: two runs of [main] over roots that list the same entries, whose
    entries are directories in the one exactly when in the other and hold
    the same metadata, stores and logs, and whose output file opens and
    takes the rows alike, end the same way and write the same table: same
    header, same rows in the same order, same cells. The entries may even
    be listed in another order, as long as [is_dir] answers for each. *)
Theorem assembly_is_deterministic (fs1 fs2 : FileSystem) :
  same_listing (iterdir fs1) (iterdir fs2) ->
  (iterdir fs1 = iterdir fs2 \/
   forall d, listed fs1 d -> exists b, is_dir fs1 d = Ok b) ->
  (forall d, listed fs1 d ->
     is_dir fs1 d = is_dir fs2 d /\ run_dir fs1 d = run_dir fs2 d) ->
  open_output fs1 = open_output fs2 ->
  (forall table, writerows_fault fs1 table = writerows_fault fs2 table) ->
  main fs1 = main fs2.
Proof.
  intros Hlist Horder Hsame Hopen Hfault.
  assert (Hc : collect_klee_outputs fs1 = collect_klee_outputs fs2).
  { destruct Horder as [Heq|Hans].
    - unfold collect_klee_outputs, listed in *. rewrite <- Heq.
      destruct (iterdir fs1) as [xs|e]; [|reflexivity]. cbn [and_then].
      rewrite (keep_if_ext (is_klee_output fs1) (is_klee_output fs2) xs);
        [reflexivity|].
      intros d Hd. apply is_klee_output_ext. now apply Hsame.
    - unfold same_listing, listed in *.
      destruct (iterdir fs1) as [xs|e1] eqn:E1,
               (iterdir fs2) as [ys|e2] eqn:E2; try contradiction.
      + rewrite (collect_klee_outputs_eq fs1 xs E1 Hans).
        rewrite (collect_klee_outputs_eq fs2 ys E2).
        * f_equal. apply sorted_of_permutation, filter_of_permutation;
            [exact Hlist|].
          intros d Hd. apply is_run_dir_ext. now apply Hsame.
        * intros d Hd. rewrite <- Hlist in Hd.
          destruct (Hans d Hd) as [b Hb]. exists b.
          now rewrite <- (proj1 (Hsame d Hd)).
      + unfold collect_klee_outputs. rewrite E1, E2. cbn [and_then].
        now subst. }
  rewrite !main_eq, <- Hc.
  destruct (collect_klee_outputs fs1) as [[|d0 dirs]|e] eqn:E; try reflexivity.
  unfold assemble.
  rewrite <- (rows_of_ext fs1 fs2 (d0 :: dirs)), <- Hopen.
  - destruct (rows_of fs1 (d0 :: dirs)) as [rs|e]; [|reflexivity].
    now rewrite Hfault.
  - intros d Hd. apply Hsame. exact (out_dirs_listed fs1 _ d E Hd).
Qed.

Lemma assembly_is_deterministic_sample :
  same_listing (iterdir Sample.fs) (iterdir Sample.fs_relisted) /\
  main Sample.fs = main Sample.fs_relisted.
Proof.
  assert (H : same_listing (iterdir Sample.fs) (iterdir Sample.fs_relisted))
    by apply Permutation_rev.
  split; [exact H|].
  exact (assembly_is_deterministic Sample.fs Sample.fs_relisted H
           (or_intror (fun d _ => ex_intro _ _ eq_refl))
           (fun d _ => conj eq_refl eq_refl) eq_refl (fun _ => eq_refl)).
Defined.

(** C6: the cleaned frame holds exactly the rows whose label is not -1;
    when none is left the script prints that no data with labels 0 or 1
    was found and exits, without calling the split or the fit; when some
    row is left, the split is called on the cleaned rows. *)
Theorem trainer_stops_without_labelled_rows
    (sk : Sklearn) (df : list DataRow) :
  (forall r, r ∈ df_cleaned df <-> r ∈ df /\ row_label r <> -1) /\
  (Forall (fun r => row_label r = -1) df ->
   length (df_cleaned df) = 0%nat /\
   train_model sk (Some df) =
   [ Stdout " Successfully loaded the dataset.";
     StdoutShape "Original shape of the dataset" (length df);
     Stdout " ERROR: After cleaning, no data with labels 0 or 1 was found.";
     Stdout "Please check your feature extraction script and CSV file.";
     SysExit ] /\
   existsb is_split_or_fit (train_model sk (Some df)) = false) /\
  (~ Forall (fun r => row_label r = -1) df ->
   CallTrainTestSplit (map row_X (df_cleaned df))
                      (map row_label (df_cleaned df))
   ∈ train_model sk (Some df)).
Proof.
  assert (Hchar : forall r, r ∈ df_cleaned df <-> r ∈ df /\ row_label r <> -1).
  { intros r. unfold df_cleaned.
    rewrite !list_elem_of_In, filter_In, negb_true_iff, Z.eqb_neq. tauto. }
  split; [exact Hchar|]. split.
  - intros Hall.
    assert (Hnil : df_cleaned df = []).
    { destruct (df_cleaned df) as [|r rs] eqn:E; [reflexivity|].
      assert (Hr : r ∈ r :: rs) by apply list_elem_of_here.
      apply Hchar in Hr. destruct Hr as [Hin Hne].
      rewrite Forall_forall in Hall. now specialize (Hall r Hin). }
    unfold train_model. rewrite Hnil. repeat split.
  - intros Hsome. unfold train_model.
    destruct (df_cleaned df) as [|r rs] eqn:E.
    + exfalso. apply Hsome. apply Forall_forall. intros r Hr.
      destruct (Z.eq_dec (row_label r) (-1)) as [Heq|Hne]; [exact Heq|].
      assert (Hin : r ∈ @nil DataRow) by (apply Hchar; now split).
      inversion Hin.
    + cbn [app]. do 4 apply list_elem_of_further. apply list_elem_of_here.
Qed.

Example trainer_on_unknown_only :
  train_model Sample.refusing (Some Sample.df_unknown) =
  [ Stdout " Successfully loaded the dataset.";
    StdoutShape "Original shape of the dataset" 2;
    Stdout " ERROR: After cleaning, no data with labels 0 or 1 was found.";
    Stdout "Please check your feature extraction script and CSV file.";
    SysExit ].
Proof. reflexivity. Qed.

Example trainer_on_mixed_rows :
  df_cleaned Sample.df_mixed =
  [ {| row_dir := "klee-out-0"; row_unit := "CWE190_x_bad";
       row_X := [PyInt 1200]; row_label := 1 |} ].
Proof. reflexivity. Qed.

(** ** The split *)

Lemma train_model_labelled (sk : Sklearn) (df : list DataRow) :
  df_cleaned df <> [] ->
  train_model sk (Some df) =
  ([ Stdout " Successfully loaded the dataset.";
     StdoutShape "Original shape of the dataset" (length df);
     StdoutShape "Shape after removing unknown labels (-1)"
                 (length (df_cleaned df));
     StdoutCounts (y_target df);
     CallTrainTestSplit (X_features df) (y_target df) ] ++
   match split sk (X_features df) (y_target df) with
   | Raise e => [ Traceback e ]
   | Ok (X_train, X_test, (y_train, y_test)) =>
       train_and_evaluate sk X_train X_test y_train y_test
   end)%list.
Proof.
  intros Hne. unfold train_model, X_features, y_target.
  destruct (df_cleaned df) as [|r rs]; [contradiction | reflexivity].
Qed.

Lemma n_test_bounds (n : nat) :
  (n <= 5 * n_test n /\ 5 * n_test n < n + 5)%nat.
Proof.
  unfold n_test.
  pose proof (Nat.div_mod_eq (n + 4) 5) as H.
  pose proof (Nat.mod_upper_bound (n + 4) 5) as Hlt. lia.
Qed.

Lemma n_train_n_test (n : nat) : (n_train n + n_test n = n)%nat.
Proof. unfold n_train. pose proof (n_test_bounds n). lia. Qed.

Lemma filter_length_permutation {A} (f : A -> bool) (xs ys : list A) :
  xs ≡ₚ ys -> length (List.filter f xs) = length (List.filter f ys).
Proof.
  intros Hperm. induction Hperm as [|x xs ys _ IH|x y xs|xs ys zs _ IH1 _ IH2].
  - reflexivity.
  - simpl. destruct (f x); simpl; now rewrite IH.
  - simpl. destruct (f x), (f y); reflexivity.
  - now rewrite IH1.
Qed.

Lemma class_count_app (c : Z) (xs ys : list Z) :
  class_count c (xs ++ ys) = (class_count c xs + class_count c ys)%nat.
Proof. unfold class_count. now rewrite List.filter_app, length_app. Qed.

(** The labels of the two parts of a partition are the labels of the
    whole. *)
Lemma partition_labels (X X_train X_test : list (list pyval))
    (y y_train y_test : list Z) :
  length X = length y -> length X_train = length y_train ->
  length X_test = length y_test ->
  (zip X_train y_train ++ zip X_test y_test)%list ≡ₚ zip X y ->
  (y_train ++ y_test)%list ≡ₚ y.
Proof.
  intros HX Htrain Htest Hperm.
  apply (fmap_Permutation snd) in Hperm.
  rewrite fmap_app, !snd_zip in Hperm by lia. exact Hperm.
Qed.

Lemma rounds_complement (k t c a b n : nat) :
  (k + t = c)%nat -> (a + b = c * n)%nat ->
  rounds k a n -> rounds t b n.
Proof.
  unfold rounds. intros Hc Hab [[H1 H2]|[H1 [H2 H3]]].
  - destruct t as [|t].
    + left. nia.
    + right. nia.
  - left. nia.
Qed.

Lemma class_of_one_is_refused (y : list Z) (c : Z) :
  c ∈ y -> class_count c y = 1%nat -> split_refusal y = Some ValueError.
Proof.
  intros Hc Hone. unfold split_refusal.
  destruct (n_train (length y) =? 0)%nat; [reflexivity|].
  assert (Hex : existsb (fun c => (class_count c y <? 2)%nat) (classes y)
                = true).
  { apply existsb_exists. exists c. split.
    - clear Hone. induction y as [|a y IH]; [now apply elem_of_nil in Hc|].
      cbn [classes]. apply elem_of_cons in Hc as [->|Hc].
      + destruct (existsb (Z.eqb a) (classes y)) eqn:E; [|now left].
        apply existsb_exists in E. destruct E as [x [Hx Heq]].
        apply Z.eqb_eq in Heq. now subst.
      + destruct (existsb (Z.eqb a) (classes y)); [now apply IH|].
        right. now apply IH.
    - rewrite Hone. reflexivity. }
  now rewrite Hex.
Qed.

(** C7, as stated, fails on the example of the specification: of its five
    rows three are labelled, with labels 1, 0 and 1; the class 0 has a
    single member, so the stratified split is refused and the script ends
    with a traceback: no partition is made. *)
Lemma three_labelled_rows_cannot_be_split :
  map row_label Sample.df_example = [1; 0; 1; -1; -1] /\
  y_target Sample.df_example = [1; 0; 1] /\
  class_count 0 (y_target Sample.df_example) = 1%nat /\
  split_refusal (y_target Sample.df_example) = Some ValueError /\
  forall sk : Sklearn,
    respects_contract (X_features Sample.df_example)
                      (y_target Sample.df_example)
                      (split sk (X_features Sample.df_example)
                                           (y_target Sample.df_example)) ->
    (forall parts,
       split sk (X_features Sample.df_example)
                           (y_target Sample.df_example) <> Ok parts) /\
    train_model sk (Some Sample.df_example) =
    [ Stdout " Successfully loaded the dataset.";
      StdoutShape "Original shape of the dataset" 5;
      StdoutShape "Shape after removing unknown labels (-1)" 3;
      StdoutCounts [1; 0; 1];
      CallTrainTestSplit [[PyInt 0]; [PyInt 1]; [PyInt 2]] [1; 0; 1];
      Traceback ValueError ].
Proof.
  split; [reflexivity|]. split; [reflexivity|]. split; [reflexivity|].
  split; [reflexivity|].
  intros sk Hsk. unfold respects_contract in Hsk.
  change (split_refusal (y_target Sample.df_example))
    with (Some ValueError) in Hsk.
  split; [intros parts; rewrite Hsk; discriminate|].
  rewrite train_model_labelled by discriminate.
  rewrite Hsk. reflexivity.
Qed.

(** C7, amended: when [train_test_split] does what scikit-learn documents,
    every set of labelled rows with a class of a single row is refused, and
    for every refused set the script ends with the [ValueError], without
    fitting; for every other non-empty set, the rows are partitioned into a
    training and a held-out part, the held-out part holds a fifth of the
    rows rounded up, every class sends to each part its proportional share
    rounded down or up, and the tree is fitted on the training part. The
    split is called with the seed 42 on the labelled rows in file order, so
    that frames with the same labelled rows are split alike. *)
Theorem split_is_stratified_when_accepted (sk : Sklearn) (df : list DataRow) :
  df_cleaned df <> [] ->
  respects_contract (X_features df) (y_target df)
                    (split sk (X_features df) (y_target df)) ->
  (forall c, c ∈ y_target df -> class_count c (y_target df) = 1%nat ->
     split_refusal (y_target df) = Some ValueError) /\
  (forall df', df_cleaned df' = df_cleaned df ->
     split sk (X_features df') (y_target df')
     = train_test_split sk (X_features df) (y_target df)
                        test_size 42 (y_target df)) /\
  match split_refusal (y_target df) with
  | Some e =>
      train_model sk (Some df) =
      [ Stdout " Successfully loaded the dataset.";
        StdoutShape "Original shape of the dataset" (length df);
        StdoutShape "Shape after removing unknown labels (-1)"
                    (length (df_cleaned df));
        StdoutCounts (y_target df);
        CallTrainTestSplit (X_features df) (y_target df);
        Traceback e ]
  | None =>
      exists X_train X_test y_train y_test,
        split sk (X_features df) (y_target df)
        = Ok (X_train, X_test, (y_train, y_test)) /\
        (zip X_train y_train ++ zip X_test y_test)%list
        ≡ₚ zip (X_features df) (y_target df) /\
        (length y_train + length y_test = length (y_target df))%nat /\
        (length (y_target df) <= 5 * length y_test)%nat /\
        (5 * length y_test < length (y_target df) + 5)%nat /\
        (forall c,
           (class_count c y_train + class_count c y_test
            = class_count c (y_target df))%nat) /\
        (forall c, c ∈ classes (y_target df) ->
           rounds (class_count c y_train)
                  (class_count c (y_target df)
                   * n_train (length (y_target df)))
                  (length (y_target df)) /\
           rounds (class_count c y_test)
                  (class_count c (y_target df)
                   * n_test (length (y_target df)))
                  (length (y_target df))) /\
        StdoutSizes (length X_train) (length X_test)
        ∈ train_model sk (Some df) /\
        CallFit X_train y_train ∈ train_model sk (Some df)
  end.
Proof.
  intros Hne Hsk. split; [apply class_of_one_is_refused|].
  split; [intros df' Hsame; unfold X_features, y_target; now rewrite Hsame|].
  unfold respects_contract in Hsk.
  rewrite (train_model_labelled sk df Hne).
  destruct (split_refusal (y_target df)) as [e|].
  - now rewrite Hsk.
  - destruct Hsk as [X_train [X_test [y_train [y_test
      [Hsplit [Htrain [Htest [Hperm [Hsize Hshare]]]]]]]]].
    exists X_train, X_test, y_train, y_test.
    assert (Hy : (y_train ++ y_test)%list ≡ₚ y_target df).
    { apply (partition_labels (X_features df) X_train X_test); try assumption.
      unfold X_features, y_target. now rewrite !length_map. }
    assert (Hcount : forall c,
      (class_count c y_train + class_count c y_test
       = class_count c (y_target df))%nat).
    { intros c. rewrite <- class_count_app. unfold class_count.
      now apply filter_length_permutation. }
    pose proof (n_test_bounds (length (y_target df))) as [Hlo Hhi].
    pose proof (n_train_n_test (length (y_target df))) as Hsum.
    split; [exact Hsplit|]. split; [exact Hperm|].
    split; [rewrite <- (Permutation_length Hy), length_app; reflexivity|].
    split; [now rewrite Hsize|]. split; [now rewrite Hsize|].
    split; [exact Hcount|].
    split.
    { intros c Hc. split; [now apply Hshare|].
      apply (rounds_complement (class_count c y_train) _
               (class_count c (y_target df))
               (class_count c (y_target df) * n_train (length (y_target df))));
        [apply Hcount | nia | now apply Hshare]. }
    rewrite Hsplit. unfold train_and_evaluate. cbn [app]. split.
    + do 5 apply list_elem_of_further. apply list_elem_of_here.
    + do 6 apply list_elem_of_further. apply list_elem_of_here.
Qed.

Lemma split_is_stratified_when_accepted_sample :
  df_cleaned Sample.df_ten <> [] /\
  split_refusal (y_target Sample.df_ten) = None /\
  exists X_train X_test y_train y_test,
    split Sample.last_two (X_features Sample.df_ten)
                                     (y_target Sample.df_ten)
    = Ok (X_train, X_test, (y_train, y_test)) /\
    length y_test = 2%nat /\
    CallFit X_train y_train ∈ train_model Sample.last_two (Some Sample.df_ten).
Proof.
  assert (Hne : df_cleaned Sample.df_ten <> []) by discriminate.
  assert (Hsk : respects_contract
                  (X_features Sample.df_ten) (y_target Sample.df_ten)
                  (split Sample.last_two
                     (X_features Sample.df_ten) (y_target Sample.df_ten))).
  { unfold respects_contract.
    change (split_refusal (y_target Sample.df_ten)) with (@None exn).
    eexists _, _, _, _. split; [reflexivity|].
    split; [reflexivity|]. split; [reflexivity|].
    split; [reflexivity|]. split; [reflexivity|].
    intros c Hc. change (classes (y_target Sample.df_ten)) with [1; 0] in Hc.
    apply elem_of_cons in Hc as [->|Hc];
      [|apply elem_of_cons in Hc as [->|Hc]; [|now apply elem_of_nil in Hc]];
      left; vm_compute; split; lia. }
  split; [exact Hne|]. split; [reflexivity|].
  destruct (split_is_stratified_when_accepted Sample.last_two Sample.df_ten
              Hne Hsk) as [_ [_ H]].
  change (split_refusal (y_target Sample.df_ten)) with (@None exn) in H.
  destruct H as [X_train [X_test [y_train [y_test
    [Hsplit [_ [_ [Hlo [Hhi [_ [_ [_ Hfit]]]]]]]]]]]].
  exists X_train, X_test, y_train, y_test.
  split; [exact Hsplit|]. split; [|exact Hfit].
  change (length (y_target Sample.df_ten)) with 10%nat in Hlo, Hhi. lia.
Defined.

Lemma store_row_some (st : StatsStore) (selected : list string)
    (r : string -> pyval) :
  store_row st = Some (selected, r) ->
  exists t,
    find_table st "stats" = Some t /\ head (rows t) = Some r /\
    selected = List.filter (fun col => mem col (columns t)) FEATURE_COLUMNS.
Proof.
  unfold store_row.
  destruct (fails st Connect || fails st ListTables); [discriminate|].
  destruct (mem "stats" (map fst (tables st))); [|discriminate].
  destruct (fails st TableInfo); [discriminate|].
  destruct (find_table st "stats") as [t|]; [|discriminate].
  destruct (List.filter (fun col => mem col (columns t)) FEATURE_COLUMNS)
    as [|c sel] eqn:E; [discriminate|].
  destruct (fails st SelectRow); [discriminate|].
  destruct (head (rows t)) as [r'|] eqn:Hrow; [|discriminate].
  intros [= <- <-]. exists t. repeat split; [exact Hrow | now rewrite E].
Qed.

Lemma find_table_listed (st : StatsStore) (name : string) (t : Table) :
  find_table st name = Some t -> mem name (map fst (tables st)) = true.
Proof.
  unfold find_table. intros H.
  destruct (List.find (fun nt => String.eqb (fst nt) name) (tables st))
    as [[n t']|] eqn:E; [|discriminate].
  apply find_some in E. destruct E as [Hin Heq]. cbn [fst] in Heq.
  apply String.eqb_eq in Heq. subst n.
  apply mem_true_iff, list_elem_of_In, in_map_iff. now exists (name, t').
Qed.

Lemma store_row_reliable (st : StatsStore) (t : Table) (r : string -> pyval)
    (col : string) :
  (forall c, fails st c = false) ->
  find_table st "stats" = Some t -> head (rows t) = Some r ->
  col ∈ FEATURE_COLUMNS -> col ∈ columns t ->
  exists selected,
    store_row st = Some (selected, r) /\ mem col selected = true.
Proof.
  intros Hok Ht Hr Hcol Hin. unfold store_row.
  rewrite !Hok, (find_table_listed st "stats" t Ht), Ht. cbn [orb].
  assert (Hsel : In col (List.filter (fun c => mem c (columns t))
                                     FEATURE_COLUMNS)).
  { apply filter_In. split; [now apply list_elem_of_In|].
    now apply mem_true_iff. }
  destruct (List.filter (fun c => mem c (columns t)) FEATURE_COLUMNS)
    as [|c sel] eqn:E; [destruct Hsel|].
  rewrite Hr. eexists. split; [reflexivity|].
  now apply mem_true_iff, list_elem_of_In.
Qed.

(** C10, as stated, fails for a store that holds text under a metric
    column: the text is recorded as it is, and it is not a number. *)
Lemma text_metric_is_recorded_as_text :
  extract_stats Sample.fs_text_store "klee-out-0" =
  Ok [PyStr "n/a"; PyInt 0; PyInt 0; PyInt 0; PyInt 0; PyInt 0; PyInt 0;
      PyInt 0; PyInt 0; PyInt 0; PyInt 0; PyInt 0] /\
  ~ is_number (PyStr "n/a").
Proof. split; [vm_compute; reflexivity | intros H; exact H]. Qed.

Lemma extract_stats_returned (fs : FileSystem) (d : string)
    (values : list pyval) :
  extract_stats fs d = Ok values ->
  exists store log,
    stats_file (run_dir fs d) = Ok store /\
    warnings_file (run_dir fs d) = Ok log /\
    values = (map (metric_value store) FEATURE_COLUMNS
              ++ [PyInt (warnings_value log)])%list.
Proof.
  rewrite extract_stats_eq.
  destruct (run_dir fs d) as [e|info store log]; [discriminate|].
  intros [= <-]. now exists store, log.
Qed.

(** What [extract_stats] returns once [exists] has found the store. *)
Lemma extract_stats_of_store (fs : FileSystem) (d : string)
    (store : option StatsStore) :
  stats_file (run_dir fs d) = Ok store ->
  exists log,
    warnings_file (run_dir fs d) = Ok log /\
    extract_stats fs d =
    Ok (map (metric_value store) FEATURE_COLUMNS
        ++ [PyInt (warnings_value log)])%list.
Proof.
  intros Hst. rewrite extract_stats_eq.
  destruct (run_dir fs d) as [e|info store' log]; [discriminate|].
  cbn [stats_file] in Hst. injection Hst as ->. now exists log.
Qed.

Lemma metric_at_app (g : string -> pyval) (tl : list pyval) (key : string) :
  key ∈ FEATURE_COLUMNS ->
  metric_at FEATURE_COLUMNS (map g FEATURE_COLUMNS ++ tl) key = Some (g key).
Proof.
  generalize FEATURE_COLUMNS as names.
  induction names as [|k ks IH]; intros Hkey; [inversion Hkey|].
  cbn [map app metric_at]. destruct (String.eqb k key) eqn:E.
  - apply String.eqb_eq in E. now subst.
  - apply String.eqb_neq in E. apply IH.
    inversion Hkey; subst; [congruence | assumption].
Qed.

(** C10, amended: once [exists] has answered for the store of a run, the
    extractor returns; in whatever it returns, a NULL stored under a metric
    column is recorded as 0, a value that is not NULL is recorded as it is
    when no call on the store raises, and no field is ever [None]; every
    field is a number whenever the row of the store holds only numbers and
    NULLs under the metric columns. *)
Theorem null_metric_is_recorded_as_zero (fs : FileSystem) (d : string) :
  (forall store, stats_file (run_dir fs d) = Ok store ->
   exists values, extract_stats fs d = Ok values) /\
  forall values,
    extract_stats fs d = Ok values ->
    Forall (fun v => v <> PyNone) values /\
    (forall st t r col,
       stats_file (run_dir fs d) = Ok (Some st) ->
       find_table st "stats" = Some t -> head (rows t) = Some r ->
       col ∈ FEATURE_COLUMNS -> col ∈ columns t -> r col = PyNone ->
       metric_at FEATURE_COLUMNS values col = Some (PyInt 0)) /\
    (forall st t r col,
       stats_file (run_dir fs d) = Ok (Some st) ->
       (forall c, fails st c = false) ->
       find_table st "stats" = Some t -> head (rows t) = Some r ->
       col ∈ FEATURE_COLUMNS -> col ∈ columns t ->
       metric_at FEATURE_COLUMNS values col = Some (none_to_zero (r col))) /\
    ((forall st, stats_file (run_dir fs d) = Ok (Some st) ->
                 numeric_store st) ->
     Forall is_number values).
Proof.
  split.
  { intros store Hstore.
    destruct (extract_stats_of_store fs d store Hstore) as [log [_ ->]].
    eauto. }
  intros values Hret.
  destruct (extract_stats_returned fs d values Hret)
    as [store [log [Hstore [_ ->]]]].
  split.
  { apply Forall_app. split.
    - apply Forall_map_all. intros key. apply metric_value_not_none.
    - repeat constructor. discriminate. }
  split.
  { intros st t r col Hst Ht Hr Hcol Hin Hnull.
    rewrite metric_at_app by exact Hcol. f_equal.
    rewrite Hstore in Hst. injection Hst as ->.
    unfold metric_value.
    destruct (store_row st) as [[selected r']|] eqn:E; [|reflexivity].
    destruct (mem col selected); [|reflexivity].
    apply store_row_some in E. destruct E as [t' [Ht' [Hr' _]]].
    rewrite Ht in Ht'. injection Ht' as <-.
    rewrite Hr in Hr'. injection Hr' as <-.
    now rewrite Hnull. }
  split.
  { intros st t r col Hst Hok Ht Hr Hcol Hin.
    rewrite metric_at_app by exact Hcol. f_equal.
    rewrite Hstore in Hst. injection Hst as ->.
    unfold metric_value.
    destruct (store_row_reliable st t r col Hok Ht Hr Hcol Hin)
      as [selected [-> ->]]. reflexivity. }
  intros Hnum. apply Forall_app. split; [|repeat constructor].
  apply Forall_forall. intros v Hv.
  apply list_elem_of_In, in_map_iff in Hv. destruct Hv as [key [<- Hkey]].
  unfold metric_value.
  destruct store as [st|]; [|exact I].
  destruct (store_row st) as [[selected r]|] eqn:E; [|exact I].
  destruct (mem key selected); [|exact I].
  apply store_row_some in E. destruct E as [t [Ht [Hr _]]].
  destruct (Hnum st Hstore t r key Ht Hr) as [-> | Hn];
    [now apply list_elem_of_In | exact I |].
  destruct (r key); try contradiction; exact I.
Qed.

Lemma null_metric_is_recorded_as_zero_sample :
  numeric_store Sample.noted_store /\
  exists values,
    extract_stats Sample.fs_noted_store "klee-out-0" = Ok values /\
    Forall is_number values.
Proof.
  assert (Hnum : numeric_store Sample.noted_store).
  { intros t r col Ht Hr Hcol. injection Ht as <-. injection Hr as <-.
    repeat (apply elem_of_cons in Hcol as [->|Hcol]; [right; exact I|]).
    now apply elem_of_nil in Hcol. }
  split; [exact Hnum|].
  destruct (null_metric_is_recorded_as_zero Sample.fs_noted_store "klee-out-0")
    as [Hret Hall].
  destruct (Hret (Some Sample.noted_store) eq_refl) as [values Hvalues].
  exists values. split; [exact Hvalues|].
  apply (Hall values Hvalues). intros st Hst. injection Hst as <-.
  exact Hnum.
Defined.

(** * Further properties of the scripts *)

(** ** The enumerator and the ways [main] ends *)





(** X1: when the results root can be listed and [is_dir] answers for each
    of its entries, [collect_klee_outputs] returns the listed entries that
    are directories and whose name starts with [klee-out-], each as often
    as it is listed, in ascending order of their names as strings. *)
Theorem enumerator_returns_sorted_run_directories
    (fs : FileSystem) (entries : list string) :
  iterdir fs = Ok entries ->
  (forall d, d ∈ entries -> exists b, is_dir fs d = Ok b) ->
  exists out_dirs,
    collect_klee_outputs fs = Ok out_dirs /\
    Sorted String.le out_dirs /\
    out_dirs ≡ₚ List.filter (is_run_dir fs) entries /\
    (forall d, d ∈ out_dirs <->
               d ∈ entries /\ is_dir fs d = Ok true /\
               Py.startswith d KLEE_OUT_PREFIX = true).
Proof.
  intros Hroot Hans. rewrite (collect_klee_outputs_eq fs entries Hroot Hans).
  eexists. split; [reflexivity|].
  split; [apply sorted_Sorted|].
  split; [apply sorted_perm|].
  intros d. rewrite sorted_perm, !list_elem_of_In, filter_In.
  unfold is_run_dir. split.
  - intros [Hd Hrun]. split; [exact Hd|].
    destruct (is_dir fs d) as [[|]|e]; try discriminate.
    now split.
  - intros [Hd [-> Hpre]]. now split.
Qed.

Lemma enumerator_returns_sorted_run_directories_sample :
  iterdir Sample.fs = Ok Sample.listing /\
  exists out_dirs,
    collect_klee_outputs Sample.fs = Ok out_dirs /\
    Sorted String.le out_dirs /\
    out_dirs ≡ₚ List.filter (is_run_dir Sample.fs) Sample.listing /\
    (forall d, d ∈ out_dirs <->
               d ∈ Sample.listing /\ is_dir Sample.fs d = Ok true /\
               Py.startswith d KLEE_OUT_PREFIX = true).
Proof.
  split; [reflexivity|].
  exact (enumerator_returns_sorted_run_directories
           Sample.fs Sample.listing eq_refl
           (fun d _ => ex_intro _ _ eq_refl)).
Defined.


(** ** Labels *)


(** ** What the extractor reads from a store *)






(** ** The warning count *)




(** ** The two readers of [info] *)

Lemma get_function_name_eq (fs : FileSystem) (d : string) :
  Automate.get_function_name_from_info_file fs d =
  and_then (info_file (run_dir fs d)) (fun info =>
    Ok match info with
       | Some (Ok line) => Some (name_of (Some (Ok line)))
       | _ => None
       end).
Proof.
  unfold Automate.get_function_name_from_info_file.
  destruct (info_file (run_dir fs d)) as [[[line|e]|]|e]; try reflexivity.
  cbn [and_then]. destruct (read_info_ok line) as [token [Hlast _]].
  unfold Py.last_item, name_of. now rewrite Hlast.
Qed.

Lemma readers_agree_on_any_directory (fs : FileSystem) (d : string) :
  match Automate.get_function_name_from_info_file fs d with
  | Ok (Some name) => extract_info_and_label fs d = Ok (name, inferred name)
  | Ok None => extract_info_and_label fs d = Ok ("unknown", -1)
  | Raise e => extract_info_and_label fs d = Raise e
  end.
Proof.
  rewrite get_function_name_eq, extract_info_and_label_eq.
  destruct (info_file (run_dir fs d)) as [[[line|e]|]|e]; reflexivity.
Qed.

(** X7: the reader of the demonstration script and the reader of the
    extractor agree on every run directory: when the first returns a name,
    the second returns that name with the label inferred from it; when the
    first returns [None], the second returns the placeholder [unknown]
    with the label -1; and when the first raises, so does the second. *)
Theorem info_readers_agree (fs : FileSystem) (d : string) :
  match Automate.get_function_name_from_info_file fs d with
  | Ok (Some name) => extract_info_and_label fs d = Ok (name, inferred name)
  | Ok None => extract_info_and_label fs d = Ok ("unknown", -1)
  | Raise e => extract_info_and_label fs d = Raise e
  end.
Proof. apply readers_agree_on_any_directory. Qed.

(** ** The trainer *)

Lemma df_cleaned_sublist (df : list DataRow) : sublist (df_cleaned df) df.
Proof.
  unfold df_cleaned. induction df as [|r df IH]; simpl; [constructor|].
  destruct (negb (row_label r =? -1)); now constructor.
Qed.

Lemma df_cleaned_labels (df : list DataRow) :
  Forall (fun l => l <> -1) (map row_label (df_cleaned df)).
Proof.
  unfold df_cleaned. induction df as [|r df IH]; simpl; [constructor|].
  destruct (row_label r =? -1) eqn:E; simpl; [exact IH|].
  constructor; [now apply Z.eqb_neq | exact IH].
Qed.

Ltac not_among Hin :=
  repeat (apply elem_of_cons in Hin as [Hin|Hin]; [discriminate Hin|]);
  try (now apply elem_of_nil in Hin).

Lemma no_split_in_evaluation (sk : Sklearn)
    (X_train X_test : list (list pyval)) (y_train y_test : list Z)
    (X : list (list pyval)) (y : list Z) :
  CallTrainTestSplit X y
  ∉ train_and_evaluate sk X_train X_test y_train y_test.
Proof.
  intros Hin. unfold train_and_evaluate in Hin. cbn [app] in Hin.
  do 2 (apply elem_of_cons in Hin as [Hin|Hin]; [discriminate Hin|]).
  destruct (fit_tree sk X_train y_train) as [model|e]; [|not_among Hin].
  cbn [app] in Hin.
  do 2 (apply elem_of_cons in Hin as [Hin|Hin]; [discriminate Hin|]).
  destruct (predict sk model X_test) as [y_pred|e]; [|not_among Hin].
  destruct (accuracy_score sk y_test y_pred) as [u|e]; [|not_among Hin].
  cbn [app] in Hin.
  apply elem_of_cons in Hin as [Hin|Hin]; [discriminate Hin|].
  destruct (classification_report sk y_test y_pred); not_among Hin.
Qed.

Lemma fit_in_evaluation (sk : Sklearn)
    (X_train X_test : list (list pyval)) (y_train y_test : list Z)
    (X : list (list pyval)) (y : list Z) :
  CallFit X y ∈ train_and_evaluate sk X_train X_test y_train y_test <->
  X = X_train /\ y = y_train.
Proof.
  unfold train_and_evaluate. cbn [app]. split.
  - intros Hin.
    apply elem_of_cons in Hin as [Hin|Hin]; [discriminate Hin|].
    apply elem_of_cons in Hin as [Hin|Hin]; [now injection Hin|].
    exfalso.
    destruct (fit_tree sk X_train y_train) as [model|e]; [|not_among Hin].
    cbn [app] in Hin.
    do 2 (apply elem_of_cons in Hin as [Hin|Hin]; [discriminate Hin|]).
    destruct (predict sk model X_test) as [y_pred|e]; [|not_among Hin].
    destruct (accuracy_score sk y_test y_pred) as [u|e]; [|not_among Hin].
    cbn [app] in Hin.
    apply elem_of_cons in Hin as [Hin|Hin]; [discriminate Hin|].
    destruct (classification_report sk y_test y_pred); not_among Hin.
  - intros [-> ->]. apply list_elem_of_further, list_elem_of_here.
Qed.

(** X8: whenever the script calls [train_test_split], the dataset file was
    found, the rows passed are the rows of the file whose label is not -1,
    in the order of the file, features and labels have the same length,
    there is at least one row, and no label passed is -1. *)
Theorem split_sees_only_labelled_rows
    (sk : Sklearn) (file : option (list DataRow))
    (X : list (list pyval)) (y : list Z) :
  CallTrainTestSplit X y ∈ train_model sk file ->
  exists df,
    file = Some df /\
    X = map row_X (df_cleaned df) /\
    y = map row_label (df_cleaned df) /\
    sublist (df_cleaned df) df /\
    length X = length y /\
    y <> [] /\
    Forall (fun l => l <> -1) y.
Proof.
  intros Hin.
  destruct file as [df|]; [|unfold train_model in Hin; not_among Hin].
  exists df. split; [reflexivity|].
  assert (Hxy : X = map row_X (df_cleaned df) /\
                y = map row_label (df_cleaned df) /\ df_cleaned df <> []).
  { destruct (df_cleaned df) as [|r rs] eqn:E.
    - unfold train_model in Hin. rewrite E in Hin. cbn [app] in Hin.
      not_among Hin.
    - rewrite train_model_labelled in Hin by (rewrite E; discriminate).
      unfold X_features, y_target in Hin. rewrite E in Hin.
      cbn [app] in Hin.
      do 4 (apply elem_of_cons in Hin as [Hin|Hin]; [discriminate Hin|]).
      apply elem_of_cons in Hin as [Hin|Hin];
        [injection Hin as -> ->; repeat split; discriminate|].
      exfalso.
      destruct (split sk (map row_X (r :: rs))
                                    (map row_label (r :: rs)))
        as [[[Xa Xb] [ya yb]]|e]; [|not_among Hin].
      exact (no_split_in_evaluation sk Xa Xb ya yb X y Hin). }
  destruct Hxy as [-> [-> Hne]].
  split; [reflexivity|]. split; [reflexivity|].
  split; [apply df_cleaned_sublist|].
  split; [now rewrite !length_map|].
  split; [|apply df_cleaned_labels].
  destruct (df_cleaned df); [contradiction | discriminate].
Qed.

Lemma split_sees_only_labelled_rows_sample :
  CallTrainTestSplit [[PyInt 1200]] [1]
  ∈ train_model Sample.refusing (Some Sample.df_mixed) /\
  exists df,
    Some Sample.df_mixed = Some df /\
    [[PyInt 1200]] = map row_X (df_cleaned df) /\
    [1] = map row_label (df_cleaned df) /\
    sublist (df_cleaned df) df /\
    length [[PyInt 1200]] = length [1] /\
    [1] <> [] /\
    Forall (fun l => l <> -1) [1].
Proof.
  assert (H : CallTrainTestSplit [[PyInt 1200]] [1]
    ∈ train_model Sample.refusing (Some Sample.df_mixed)).
  { cbn. do 4 apply list_elem_of_further. apply list_elem_of_here. }
  split; [exact H|].
  exact (split_sees_only_labelled_rows Sample.refusing _ _ _ H).
Defined.

(** X9: the classifier is fitted exactly when the dataset file was found,
    some row is labelled and [train_test_split] returned, and then on the
    training part it returned. When the fit raises the script ends there,
    before any prediction; otherwise predictions are made on the held-out
    part of that same split, and the script ends with the exception of the
    first of [predict], [accuracy_score] and [classification_report] that
    raises, or else with the report that compares the held-out labels with
    the predictions. When the split raises, the script ends there. *)
Theorem model_is_fitted_on_the_training_part
    (sk : Sklearn) (file : option (list DataRow)) :
  (forall X_train y_train,
     CallFit X_train y_train ∈ train_model sk file <->
     exists df X_test y_test,
       file = Some df /\ df_cleaned df <> [] /\
       split sk (map row_X (df_cleaned df))
                           (map row_label (df_cleaned df))
       = Ok (X_train, X_test, (y_train, y_test))) /\
  (forall df X_train X_test y_train y_test,
     file = Some df -> df_cleaned df <> [] ->
     split sk (map row_X (df_cleaned df))
                         (map row_label (df_cleaned df))
     = Ok (X_train, X_test, (y_train, y_test)) ->
     match fit_tree sk X_train y_train with
     | Raise e =>
         last (train_model sk file) = Some (Traceback e) /\
         forall X', CallPredict X' ∉ train_model sk file
     | Ok model =>
         CallPredict X_test ∈ train_model sk file /\
         last (train_model sk file) =
         Some match predict sk model X_test with
              | Raise e => Traceback e
              | Ok y_pred =>
                  match accuracy_score sk y_test y_pred with
                  | Raise e => Traceback e
                  | Ok _ =>
                      match classification_report sk y_test y_pred with
                      | Raise e => Traceback e
                      | Ok _ => StdoutReport y_test y_pred
                      end
                  end
              end
     end) /\
  (forall df e,
     file = Some df -> df_cleaned df <> [] ->
     split sk (map row_X (df_cleaned df))
                         (map row_label (df_cleaned df)) = Raise e ->
     last (train_model sk file) = Some (Traceback e)).
Proof.
  split; [|split].
  - intros X_train y_train. split.
    + intros Hin.
      destruct file as [df|]; [|unfold train_model in Hin; not_among Hin].
      exists df.
      destruct (df_cleaned df) as [|r rs] eqn:E.
      { unfold train_model in Hin. rewrite E in Hin. cbn [app] in Hin.
        not_among Hin. }
      rewrite train_model_labelled in Hin by (rewrite E; discriminate).
      unfold X_features, y_target in Hin. rewrite E in Hin.
      cbn [app] in Hin.
      do 5 (apply elem_of_cons in Hin as [Hin|Hin]; [discriminate Hin|]).
      destruct (split sk (map row_X (r :: rs))
                                    (map row_label (r :: rs)))
        as [[[Xa Xb] [ya yb]]|e]; [|not_among Hin].
      apply fit_in_evaluation in Hin as [-> ->].
      exists Xb, yb. repeat split. discriminate.
    + intros [df [X_test [y_test [-> [Hne Hsplit]]]]].
      rewrite (train_model_labelled sk df Hne).
      unfold X_features, y_target. rewrite Hsplit.
      apply elem_of_app. right. now apply fit_in_evaluation.
  - intros df X_train X_test y_train y_test -> Hne Hsplit.
    rewrite (train_model_labelled sk df Hne).
    unfold X_features, y_target. rewrite Hsplit.
    unfold train_and_evaluate.
    destruct (fit_tree sk X_train y_train) as [model|e].
    + split.
      * cbn [app]. do 8 apply list_elem_of_further. apply list_elem_of_here.
      * destruct (predict sk model X_test) as [y_pred|e]; [|reflexivity].
        destruct (accuracy_score sk y_test y_pred) as [u|e]; [|reflexivity].
        destruct (classification_report sk y_test y_pred); reflexivity.
    + split; [reflexivity|]. intros X' Hin. cbn [app] in Hin.
      not_among Hin.
  - intros df e -> Hne Hsplit.
    rewrite (train_model_labelled sk df Hne).
    unfold X_features, y_target. now rewrite Hsplit.
Qed.

Example trainer_when_the_fit_raises :
  last (train_model Sample.unfit (Some Sample.df_ten))
  = Some (Traceback ValueError).
Proof. reflexivity. Qed.

(** ** Strings, once more *)

Lemma append_assoc (s t u : string) : (s ++ t) ++ u = s ++ (t ++ u).
Proof.
  induction s as [|c s IH]; [reflexivity|].
  rewrite !append_cons. now f_equal.
Qed.

Lemma append_nil_r (s : string) : s ++ "" = s.
Proof.
  induction s as [|c s IH]; [reflexivity|]. rewrite append_cons. now f_equal.
Qed.

Lemma length_append (s t : string) :
  String.length (s ++ t) = (String.length s + String.length t)%nat.
Proof.
  induction s as [|c s IH]; [reflexivity|].
  rewrite append_cons. cbn [String.length]. now rewrite IH.
Qed.

Lemma char_in_append (c : ascii) (s t : string) :
  char_in c (s ++ t) = char_in c s || char_in c t.
Proof.
  induction s as [|a s IH]; [reflexivity|].
  rewrite append_cons. cbn [char_in]. rewrite IH. apply orb_assoc.
Qed.

Lemma lstrip_spaces (ws s : string) :
  all_space ws = true -> Py.lstrip (ws ++ s) = Py.lstrip s.
Proof.
  induction ws as [|a ws IH]; intros H; [reflexivity|].
  cbn [all_space] in H. apply andb_true_iff in H. destruct H as [Ha Hws].
  rewrite append_cons. cbn [Py.lstrip]. rewrite Ha. now apply IH.
Qed.

Lemma rstrip_spaces (ws : string) : all_space ws = true -> Py.rstrip ws = "".
Proof.
  induction ws as [|a ws IH]; intros H; [reflexivity|].
  cbn [all_space] in H. apply andb_true_iff in H. destruct H as [Ha Hws].
  cbn [Py.rstrip]. now rewrite IH, Ha.
Qed.

Lemma rstrip_append_spaces (s ws : string) :
  all_space ws = true -> Py.rstrip (s ++ ws) = Py.rstrip s.
Proof.
  intros H. induction s as [|a s IH].
  - rewrite append_nil_l. now apply rstrip_spaces.
  - rewrite append_cons. cbn [Py.rstrip]. now rewrite IH.
Qed.

Lemma rstrip_append (s t : string) :
  Py.rstrip t <> "" -> Py.rstrip (s ++ t) = s ++ Py.rstrip t.
Proof.
  intros H. induction s as [|a s IH]; [reflexivity|].
  rewrite !append_cons. cbn [Py.rstrip]. rewrite IH.
  destruct (s ++ Py.rstrip t) as [|b u] eqn:E; [|reflexivity].
  destruct s; [rewrite append_nil_l in E; contradiction|].
  rewrite append_cons in E. discriminate E.
Qed.

Lemma split_without_separator (sep : ascii) (s : string) :
  char_in sep s = false -> Py.split sep s = [s].
Proof.
  induction s as [|a s IH]; intros H; [reflexivity|].
  cbn [char_in] in H. apply orb_false_iff in H. destruct H as [Ha Hs].
  cbn [Py.split]. rewrite Ha, IH by exact Hs. reflexivity.
Qed.

Lemma split_append (sep : ascii) (s t : string) :
  Py.split sep (s ++ String sep t) = (Py.split sep s ++ Py.split sep t)%list.
Proof.
  induction s as [|a s IH].
  - rewrite append_nil_l. cbn [Py.split]. now rewrite Ascii.eqb_refl.
  - rewrite append_cons. cbn [Py.split]. rewrite IH.
    destruct (Ascii.eqb a sep); [reflexivity|].
    pose proof (split_not_nil sep s) as Hne.
    destruct (Py.split sep s); [contradiction | reflexivity].
Qed.

Lemma split_parts_lack (c sep : ascii) (s : string) :
  char_in c s = false ->
  Forall (fun part => char_in c part = false) (Py.split sep s).
Proof.
  induction s as [|a s IH]; intros H; [repeat constructor|].
  cbn [char_in] in H. apply orb_false_iff in H. destruct H as [Ha Hs].
  specialize (IH Hs). cbn [Py.split].
  destruct (Ascii.eqb a sep); [constructor; [reflexivity | exact IH]|].
  destruct (Py.split sep s) as [|h tl].
  - repeat constructor. cbn [char_in]. now rewrite Ha.
  - inversion IH; subst. constructor; [|assumption].
    cbn [char_in]. rewrite Ha. assumption.
Qed.

Lemma split_parts_lack_separator (sep : ascii) (s : string) :
  Forall (fun part => char_in sep part = false) (Py.split sep s).
Proof.
  induction s as [|a s IH]; [repeat constructor|].
  cbn [Py.split]. destruct (Ascii.eqb a sep) eqn:Ea;
    [constructor; [reflexivity | exact IH]|].
  destruct (Py.split sep s) as [|h tl].
  - repeat constructor. cbn [char_in]. now rewrite Ea.
  - inversion IH; subst. constructor; [|assumption].
    cbn [char_in]. rewrite Ea. assumption.
Qed.

Lemma lstrip_cases (s : string) :
  (Py.lstrip s = "" /\ all_space s = true) \/
  (Py.lstrip s <> "" /\ forall t, Py.lstrip (s ++ t) = Py.lstrip s ++ t).
Proof.
  induction s as [|a s IH]; [left; split; reflexivity|].
  cbn [Py.lstrip all_space]. destruct (Py.isspace a) eqn:Ea.
  - destruct IH as [[He Hall]|[Hne Happ]]; [left; now split|].
    right. split; [exact Hne|]. intros t. rewrite append_cons.
    cbn [Py.lstrip]. rewrite Ea. apply Happ.
  - right. split; [discriminate|]. intros t. rewrite append_cons.
    cbn [Py.lstrip]. now rewrite Ea.
Qed.

Lemma lstrip_length (s : string) :
  (String.length (Py.lstrip s) <= String.length s)%nat.
Proof.
  induction s as [|a s IH]; [reflexivity|]. cbn [Py.lstrip].
  destruct (Py.isspace a); cbn [String.length]; lia.
Qed.

Lemma lstrip_fixed (tok t : string) :
  Py.lstrip tok = tok -> tok <> "" -> Py.lstrip (tok ++ t) = tok ++ t.
Proof.
  intros Hfix Hne. destruct tok as [|a tok]; [contradiction|].
  rewrite append_cons. cbn [Py.lstrip] in *.
  destruct (Py.isspace a); [|reflexivity].
  pose proof (lstrip_length tok) as Hlen. rewrite Hfix in Hlen.
  cbn [String.length] in Hlen. lia.
Qed.

Lemma lstrip_all_space (ws : string) :
  all_space ws = true -> Py.lstrip ws = "".
Proof.
  induction ws as [|a w IH]; intros H; [reflexivity|].
  cbn [all_space] in H. apply andb_true_iff in H. destruct H as [Ha Hw].
  cbn [Py.lstrip]. rewrite Ha. now apply IH.
Qed.

Lemma strip_surrounding_spaces (ws1 s ws2 : string) :
  all_space ws1 = true -> all_space ws2 = true ->
  Py.strip (ws1 ++ s ++ ws2) = Py.strip s.
Proof.
  intros H1 H2. unfold Py.strip. rewrite (lstrip_spaces ws1) by exact H1.
  destruct (lstrip_cases s) as [[He Hall]|[Hne Happ]].
  - rewrite He, lstrip_spaces by exact Hall.
    now rewrite lstrip_all_space.
  - rewrite Happ. now apply rstrip_append_spaces.
Qed.

(** X10: a line of the warnings log counts, or does not, whatever white
    space stands before and after it: indenting every line of a log and
    padding its line ends leaves the count as it is. *)
Theorem warning_count_ignores_surrounding_space
    (ws1 ws2 : string) (lines : list string) :
  all_space ws1 = true -> all_space ws2 = true ->
  count_warnings (map (fun line => ws1 ++ line ++ ws2) lines)
  = count_warnings lines.
Proof.
  intros H1 H2. unfold count_warnings. f_equal.
  induction lines as [|line lines IH]; [reflexivity|].
  cbn [map List.filter]. rewrite strip_surrounding_spaces by assumption.
  destruct (Py.startswith (Py.strip line) "KLEE: WARNING");
    cbn [length]; now rewrite IH.
Qed.

Lemma warning_count_ignores_surrounding_space_sample :
  all_space "  " = true /\
  count_warnings (map (fun line => "  " ++ line ++ newline)
                      ["KLEE: WARNING: undefined reference"; "KLEE: done"])
  = count_warnings ["KLEE: WARNING: undefined reference"; "KLEE: done"].
Proof.
  split; [reflexivity|].
  exact (warning_count_ignores_surrounding_space "  " newline _
           eq_refl eq_refl).
Defined.

(** ** Parsing the first line of [info] *)

Lemma last_token (pre tok ws : string) :
  tok <> "" -> char_in " " tok = false ->
  Py.lstrip tok = tok -> Py.rstrip tok = tok -> all_space ws = true ->
  last (Py.split " " (Py.strip (pre ++ " " ++ tok ++ ws))) = Some tok.
Proof.
  intros Hne Hsp Hl Hr Hws. unfold Py.strip.
  assert (Hr' : Py.rstrip (tok ++ ws) = tok)
    by (rewrite rstrip_append_spaces by exact Hws; exact Hr).
  destruct (lstrip_cases pre) as [[He Hall]|[Hpre Happ]].
  - rewrite lstrip_spaces by exact Hall.
    change (" " ++ tok ++ ws) with (String " " (tok ++ ws)).
    cbn [Py.lstrip]. change (Py.isspace " ") with true. cbn iota.
    rewrite lstrip_fixed, Hr' by assumption.
    now rewrite split_without_separator.
  - rewrite Happ.
    assert (Hr2 : Py.rstrip (" " ++ tok ++ ws) = " " ++ tok).
    { rewrite rstrip_append; [now rewrite Hr'|]. now rewrite Hr'. }
    rewrite rstrip_append; [|rewrite Hr2; discriminate].
    rewrite Hr2. change (" " ++ tok) with (String " " tok).
    rewrite split_append, (split_without_separator " " tok) by exact Hsp.
    apply last_snoc.
Qed.

(** X11: when the first line of [info] ends, up to trailing white space,
    in a blank followed by a token that contains no blank and neither
    starts nor ends with white space, both readers return the stem of that
    token, whatever stands before the blank, and the extractor returns the
    label inferred from that stem. *)
Theorem name_is_the_stem_of_the_last_token
    (fs : FileSystem) (d : string) (pre tok ws : string) :
  info_file (run_dir fs d) = Ok (Some (Ok (pre ++ " " ++ tok ++ ws))) ->
  tok <> "" -> char_in " " tok = false ->
  Py.lstrip tok = tok -> Py.rstrip tok = tok -> all_space ws = true ->
  extract_info_and_label fs d
  = Ok (Py.path_stem tok, inferred (Py.path_stem tok)) /\
  Automate.get_function_name_from_info_file fs d
  = Ok (Some (Py.path_stem tok)).
Proof.
  intros Hinfo Hne Hsp Hl Hr Hws.
  pose proof (last_token pre tok ws Hne Hsp Hl Hr Hws) as Hlast.
  assert (Hname : Automate.get_function_name_from_info_file fs d
                  = Ok (Some (Py.path_stem tok))).
  { rewrite get_function_name_eq, Hinfo. cbn [and_then].
    unfold name_of. now rewrite Hlast. }
  split; [|exact Hname].
  pose proof (readers_agree_on_any_directory fs d) as Hagree.
  now rewrite Hname in Hagree.
Qed.

Lemma name_is_the_stem_of_the_last_token_sample :
  info_file (run_dir Sample.fs "klee-out-0")
  = Ok (Some (Ok ("klee --libc=uclibc" ++ " "
                  ++ "../results/CWE190_x_bad.bc" ++ ""))) /\
  extract_info_and_label Sample.fs "klee-out-0" = Ok ("CWE190_x_bad", 1).
Proof.
  split; [reflexivity|].
  exact (proj1 (name_is_the_stem_of_the_last_token Sample.fs "klee-out-0"
                  "klee --libc=uclibc" "../results/CWE190_x_bad.bc" ""
                  eq_refl ltac:(discriminate) eq_refl eq_refl eq_refl
                  eq_refl)).
Defined.

Lemma rfind_append (c : ascii) (s t : string) :
  Py.rfind c (s ++ t) =
  match Py.rfind c t with
  | Some i => Some (String.length s + i)%nat
  | None => Py.rfind c s
  end.
Proof.
  induction s as [|a s IH].
  - rewrite append_nil_l. destruct (Py.rfind c t); reflexivity.
  - rewrite append_cons. cbn [Py.rfind String.length]. rewrite IH.
    destruct (Py.rfind c t); reflexivity.
Qed.

Lemma rfind_absent (c : ascii) (s : string) :
  char_in c s = false -> Py.rfind c s = None.
Proof.
  induction s as [|a s IH]; intros H; [reflexivity|].
  cbn [char_in] in H. apply orb_false_iff in H. destruct H as [Ha Hs].
  cbn [Py.rfind]. now rewrite IH, Ha.
Qed.

Lemma substring_prefix (s t : string) :
  String.substring 0 (String.length s) (s ++ t) = s.
Proof.
  induction s as [|a s IH]; [destruct t; reflexivity|].
  rewrite append_cons. cbn [String.length String.substring]. now f_equal.
Qed.

Lemma filter_snoc_kept {A} (f : A -> bool) (xs : list A) (x : A) :
  f x = true -> last (List.filter f (xs ++ [x])) = Some x.
Proof.
  intros Hx. rewrite List.filter_app. cbn [List.filter]. rewrite Hx.
  apply last_snoc.
Qed.

Lemma path_name_of_last_component (dir base : string) :
  base <> "" -> base <> "." -> char_in "/" base = false ->
  Py.path_name base = base /\ Py.path_name (dir ++ "/" ++ base) = base.
Proof.
  intros Hne Hdot Hslash.
  assert (Hkeep : negb (String.eqb base "") && negb (String.eqb base ".")
                  = true).
  { apply String.eqb_neq in Hne, Hdot. now rewrite Hne, Hdot. }
  unfold Py.path_name. split.
  - rewrite split_without_separator by exact Hslash.
    cbn [List.filter]. now rewrite Hkeep.
  - change ("/" ++ base) with (String "/" base).
    rewrite split_append, (split_without_separator "/" base) by exact Hslash.
    now rewrite filter_snoc_kept.
Qed.

Lemma stem_of_name (base ext : string) :
  base <> "" -> ext <> "" -> char_in "." ext = false ->
  match Py.rfind "." (base ++ "." ++ ext) with
  | Some i =>
      if ((0 <? i) && (i + 1 <? String.length (base ++ "." ++ ext)))%nat
      then String.substring 0 i (base ++ "." ++ ext)
      else base ++ "." ++ ext
  | None => base ++ "." ++ ext
  end = base.
Proof.
  intros Hb He Hdot. rewrite rfind_append.
  change ("." ++ ext) with (String "." ext). cbn [Py.rfind].
  rewrite rfind_absent by exact Hdot. cbn [Ascii.eqb Bool.eqb]. cbn iota.
  rewrite Nat.add_0_r, length_append. cbn [String.length].
  assert (H1 : (0 <? String.length base)%nat = true).
  { apply Nat.ltb_lt. destruct base; [contradiction | cbn; lia]. }
  assert (H2 : (String.length base + 1
                <? String.length base + S (String.length ext))%nat = true).
  { apply Nat.ltb_lt. destruct ext; [contradiction | cbn; lia]. }
  rewrite H1, H2. apply substring_prefix.
Qed.

Lemma path_stem_of_file (dir base ext : string) :
  base <> "" -> ext <> "" ->
  char_in "/" base = false -> char_in "/" ext = false ->
  char_in "." ext = false ->
  Py.path_stem (base ++ "." ++ ext) = base /\
  Py.path_stem (dir ++ "/" ++ base ++ "." ++ ext) = base.
Proof.
  intros Hb He Hsb Hse Hdot.
  assert (Hname :
    Py.path_name (base ++ "." ++ ext) = base ++ "." ++ ext /\
    Py.path_name (dir ++ "/" ++ base ++ "." ++ ext) = base ++ "." ++ ext).
  { apply path_name_of_last_component.
    - destruct base; [contradiction|]. rewrite append_cons. discriminate.
    - destruct base as [|a [|b base]]; [contradiction| |].
      + destruct ext; [contradiction|]. cbn. discriminate.
      + rewrite !append_cons. discriminate.
    - rewrite char_in_append, Hsb.
      change ("." ++ ext) with (String "." ext). cbn [char_in].
      now rewrite Hse. }
  destruct Hname as [Hn1 Hn2]. unfold Py.path_stem.
  rewrite Hn1, Hn2. split; now apply stem_of_name.
Qed.

(** X12: the reader drops the directory and the extension of the bitcode
    path. When the first line of [info] ends, up to trailing white space,
    in a blank followed by a path [dir/base.ext], where the base is not
    empty, the extension is not empty and has no dot, neither contains a
    slash, and the path contains no blank and neither starts nor ends with
    white space, the name returned is the base (dots inside it are kept),
    with the label inferred from the base. *)
Theorem name_is_the_base_of_the_bitcode_path
    (fs : FileSystem) (d : string) (pre dir base ext ws : string) :
  info_file (run_dir fs d)
  = Ok (Some (Ok (pre ++ " " ++ (dir ++ "/" ++ base ++ "." ++ ext) ++ ws))) ->
  base <> "" -> ext <> "" ->
  char_in "/" base = false -> char_in "/" ext = false ->
  char_in "." ext = false ->
  char_in " " (dir ++ "/" ++ base ++ "." ++ ext) = false ->
  Py.lstrip (dir ++ "/" ++ base ++ "." ++ ext)
  = dir ++ "/" ++ base ++ "." ++ ext ->
  Py.rstrip (dir ++ "/" ++ base ++ "." ++ ext)
  = dir ++ "/" ++ base ++ "." ++ ext ->
  all_space ws = true ->
  extract_info_and_label fs d = Ok (base, inferred base).
Proof.
  intros Hinfo Hb He Hsb Hse Hdot Hsp Hl Hr Hws.
  assert (Hne : dir ++ "/" ++ base ++ "." ++ ext <> "").
  { destruct dir; [|rewrite append_cons; discriminate].
    rewrite append_nil_l. discriminate. }
  pose proof (last_token pre _ ws Hne Hsp Hl Hr Hws) as Hlast.
  destruct (path_stem_of_file dir base ext Hb He Hsb Hse Hdot) as [_ Hstem].
  rewrite extract_info_and_label_eq, Hinfo. cbn [and_then].
  unfold name_of. now rewrite Hlast, Hstem.
Qed.

Lemma name_is_the_base_of_the_bitcode_path_sample :
  extract_info_and_label Sample.fs "klee-out-0"
  = Ok ("CWE190_x_bad", inferred "CWE190_x_bad").
Proof.
  exact (name_is_the_base_of_the_bitcode_path Sample.fs "klee-out-0"
           "klee --libc=uclibc" "../results" "CWE190_x_bad" "bc" ""
           eq_refl ltac:(discriminate) ltac:(discriminate) eq_refl eq_refl
           eq_refl eq_refl eq_refl eq_refl eq_refl).
Defined.

(** ** The demonstration script *)






Lemma last_satisfies {A} (P : A -> Prop) (xs : list A) (x : A) :
  Forall P xs -> last xs = Some x -> P x.
Proof.
  intros Hall Hlast. induction Hall as [|y ys Hy Hys IH]; [discriminate|].
  destruct ys as [|z zs]; [injection Hlast as <-; exact Hy|].
  apply IH. exact Hlast.
Qed.

Lemma filter_keeps_Forall {A} (P : A -> Prop) (f : A -> bool) (xs : list A) :
  Forall P xs -> Forall P (List.filter f xs).
Proof.
  intros H. induction H as [|x xs Hx Hxs IH]; [constructor|].
  cbn [List.filter]. destruct (f x); [now constructor | exact IH].
Qed.

Lemma path_name_lacks (c : ascii) (p : string) :
  char_in c p = false \/ c = "/"%char ->
  char_in c (Py.path_name p) = false.
Proof.
  intros H. unfold Py.path_name.
  destruct (last (List.filter _ (Py.split "/" p))) as [x|] eqn:E;
    [|reflexivity].
  refine (last_satisfies (fun part => char_in c part = false) _ x _ E).
  apply filter_keeps_Forall.
  destruct H as [H| ->];
    [now apply split_parts_lack | apply split_parts_lack_separator].
Qed.

Lemma substring_lacks (c : ascii) (s : string) :
  char_in c s = false ->
  forall i, char_in c (String.substring 0 i s) = false.
Proof.
  induction s as [|a s IH]; intros H i; [destruct i; reflexivity|].
  cbn [char_in] in H. apply orb_false_iff in H. destruct H as [Ha Hs].
  destruct i as [|i]; [reflexivity|].
  cbn [String.substring char_in]. rewrite Ha. now apply IH.
Qed.

Lemma path_stem_lacks (c : ascii) (p : string) :
  char_in c p = false \/ c = "/"%char ->
  char_in c (Py.path_stem p) = false.
Proof.
  intros H. apply path_name_lacks in H. unfold Py.path_stem.
  destruct (Py.rfind "." (Py.path_name p)) as [i|]; [|exact H].
  destruct ((0 <? i) && (i + 1 <? String.length (Py.path_name p)))%nat;
    [now apply substring_lacks | exact H].
Qed.

Lemma function_name_shape (fs : FileSystem) (d name : string) :
  Automate.get_function_name_from_info_file fs d = Ok (Some name) ->
  char_in " " name = false /\ char_in "/" name = false.
Proof.
  unfold Automate.get_function_name_from_info_file, Py.last_item.
  destruct (info_file (run_dir fs d)) as [[[line|e]|]|e]; try discriminate.
  cbn [and_then].
  destruct (last (Py.split " " (Py.strip line))) as [token|] eqn:E;
    [|discriminate].
  intros [= <-]. split; apply path_stem_lacks; [left | now right].
  refine (last_satisfies (fun part => char_in " " part = false) _ token _ E).
  apply split_parts_lack_separator.
Qed.








Example demonstration_on_a_root_that_is_a_file :
  Automate.main no_demo_fault
    {| exists_root := Ok true;
       iterdir := Raise (NotADirectoryError "results");
       is_dir := fun _ => Ok false;
       run_dir := fun _ => Sample.bare; open_output := Ok tt;
       writerows_fault := Sample.no_fault |}
    Automate.fresh_demo_dir
  = (Raise (NotADirectoryError "results"), Automate.fresh_demo_dir).
Proof. reflexivity. Qed.

Example demonstration_on_an_unsearchable_run :
  fst (Automate.main no_demo_fault Sample.fs_unsearchable
         Automate.fresh_demo_dir)
  = Raise (PermissionError "results/klee-out-1/info").
Proof. reflexivity. Qed.

Example demonstration_when_the_disk_is_full :
  fst (Automate.main
         (fun dir call => match call with
                          | WriteInfo => Some OSError
                          | _ => None
                          end)
         Demo.fs Automate.fresh_demo_dir)
  = Raise OSError.
Proof. reflexivity. Qed.

Lemma readline_first_line (s t : string) :
  char_in "010" s = false -> char_in "013" s = false ->
  readline (s ++ newline ++ t) = s ++ newline.
Proof.
  induction s as [|a s IH]; intros Hlf Hcr; [reflexivity|].
  cbn [char_in] in Hlf, Hcr.
  apply orb_false_iff in Hlf. destruct Hlf as [Ha1 Hs1].
  apply orb_false_iff in Hcr. destruct Hcr as [Ha2 Hs2].
  rewrite !append_cons. cbn [readline].
  change (ascii_of_nat 10) with "010"%char.
  change (ascii_of_nat 13) with "013"%char.
  rewrite Ha1, Ha2. cbn [orb]. now rewrite IH.
Qed.

Lemma fake_info_names_the_unit (fs : FileSystem) (d name : string) :
  info_file (run_dir fs d)
  = Ok (Some (Ok (readline (Automate.info_line name
                            ++ "PID: 12345" ++ newline)))) ->
  name <> "" ->
  char_in " " name = false -> char_in "/" name = false ->
  char_in "010" name = false -> char_in "013" name = false ->
  Automate.get_function_name_from_info_file fs d = Ok (Some name).
Proof.
  intros Hinfo Hne Hsp Hsl Hlf Hcr.
  set (dir := "../../juliet-test-suite/testcases/some_path").
  set (tok := dir ++ "/" ++ name ++ "." ++ "bc").
  assert (Htext :
    Automate.info_line name ++ "PID: 12345" ++ newline
    = ("klee --libc=uclibc" ++ " " ++ tok) ++ newline
      ++ ("PID: 12345" ++ newline)).
  { unfold Automate.info_line, tok, dir. rewrite !append_assoc. reflexivity. }
  assert (Hline_lf :
    char_in "010" ("klee --libc=uclibc" ++ " " ++ tok) = false)
    by (unfold tok, dir; rewrite !char_in_append, Hlf; reflexivity).
  assert (Hline_cr :
    char_in "013" ("klee --libc=uclibc" ++ " " ++ tok) = false)
    by (unfold tok, dir; rewrite !char_in_append, Hcr; reflexivity).
  rewrite Htext, readline_first_line in Hinfo by assumption.
  assert (Hform :
    ("klee --libc=uclibc" ++ " " ++ tok) ++ newline
    = "klee --libc=uclibc" ++ " " ++ tok ++ newline)
    by (rewrite !append_assoc; reflexivity).
  rewrite Hform in Hinfo.
  assert (Htok_sp : char_in " " tok = false).
  { unfold tok, dir. rewrite !char_in_append, Hsp. reflexivity. }
  assert (Htok_r : Py.rstrip tok = tok).
  { unfold tok.
    replace (dir ++ "/" ++ name ++ "." ++ "bc")
      with ((dir ++ "/" ++ name) ++ ".bc")
      by (rewrite !append_assoc; reflexivity).
    apply rstrip_append. discriminate. }
  assert (Hlast :
    last (Py.split " " (Py.strip ("klee --libc=uclibc" ++ " " ++ tok
                                  ++ newline))) = Some tok).
  { apply last_token; [discriminate | exact Htok_sp | reflexivity
                       | exact Htok_r | reflexivity]. }
  assert (Hstem : Py.path_stem tok = name).
  { apply (path_stem_of_file dir name "bc");
      [exact Hne | discriminate | exact Hsl | reflexivity | reflexivity]. }
  unfold Automate.get_function_name_from_info_file, Py.last_item.
  rewrite Hinfo. cbn [and_then]. now rewrite Hlast, Hstem.
Qed.


(** X14: what the demonstration script writes for a unit is read back as
    that unit: for a name that is not empty and contains no blank, slash,
    line feed or carriage return, both readers, given the first line of the
    fake [info] file, return the name, and the extractor returns the label
    inferred from it. *)
Theorem fake_info_reads_back (fs : FileSystem) (d name : string) :
  info_file (run_dir fs d)
  = Ok (Some (Ok (readline (Automate.info_line name
                            ++ "PID: 12345" ++ newline)))) ->
  name <> "" ->
  char_in " " name = false -> char_in "/" name = false ->
  char_in "010" name = false -> char_in "013" name = false ->
  Automate.get_function_name_from_info_file fs d = Ok (Some name) /\
  extract_info_and_label fs d = Ok (name, inferred name).
Proof.
  intros Hinfo Hne Hsp Hsl Hlf Hcr.
  assert (Hname : Automate.get_function_name_from_info_file fs d
                  = Ok (Some name))
    by (apply fake_info_names_the_unit; assumption).
  split; [exact Hname|].
  pose proof (readers_agree_on_any_directory fs d) as Hagree.
  now rewrite Hname in Hagree.
Qed.

Lemma fake_info_reads_back_sample :
  Automate.get_function_name_from_info_file
    (Demo.fs_fake "CWE190_x_bad") "klee-out-0" = Ok (Some "CWE190_x_bad") /\
  extract_info_and_label (Demo.fs_fake "CWE190_x_bad") "klee-out-0"
  = Ok ("CWE190_x_bad", inferred "CWE190_x_bad").
Proof.
  exact (fake_info_reads_back (Demo.fs_fake "CWE190_x_bad") "klee-out-0"
           "CWE190_x_bad" eq_refl ltac:(discriminate) eq_refl eq_refl
           eq_refl eq_refl).
Defined.

Lemma lstrip_lacks (c : ascii) (s : string) :
  char_in c s = false -> char_in c (Py.lstrip s) = false.
Proof.
  induction s as [|a s IH]; intros H; [reflexivity|].
  cbn [Py.lstrip]. destruct (Py.isspace a); [|exact H].
  cbn [char_in] in H. apply orb_false_iff in H. now apply IH.
Qed.

Lemma rstrip_lacks (c : ascii) (s : string) :
  char_in c s = false -> char_in c (Py.rstrip s) = false.
Proof.
  induction s as [|a s IH]; intros H; [reflexivity|].
  cbn [char_in] in H. apply orb_false_iff in H. destruct H as [Ha Hs].
  specialize (IH Hs). cbn [Py.rstrip].
  destruct (Py.rstrip s) as [|b r].
  - destruct (Py.isspace a); [reflexivity|]. cbn [char_in]. now rewrite Ha.
  - cbn [char_in] in *. now rewrite Ha.
Qed.

Lemma readline_shape (text : string) :
  exists body,
    (readline text = body \/ readline text = body ++ newline) /\
    char_in "010" body = false /\ char_in "013" body = false.
Proof.
  induction text as [|a text [body [Hrl [Hlf Hcr]]]].
  - exists "". split; [now left | split; reflexivity].
  - cbn [readline]. change (ascii_of_nat 10) with "010"%char.
    change (ascii_of_nat 13) with "013"%char.
    destruct (Ascii.eqb a "010") eqn:E1; cbn [orb].
    + exists "". split; [now right | split; reflexivity].
    + destruct (Ascii.eqb a "013") eqn:E2.
      * exists "". split; [now right | split; reflexivity].
      * exists (String a body). split.
        -- destruct Hrl as [-> | ->]; [now left | right].
           now rewrite append_cons.
        -- cbn [char_in]. now rewrite E1, E2, Hlf, Hcr.
Qed.

Lemma strip_of_readline_lacks_line_ends (text : string) :
  char_in "010" (Py.strip (readline text)) = false /\
  char_in "013" (Py.strip (readline text)) = false.
Proof.
  destruct (readline_shape text) as [body [Hrl [Hlf Hcr]]].
  assert (Hstrip : Py.strip (readline text) = Py.strip body).
  { destruct Hrl as [-> | ->]; [reflexivity|].
    rewrite <- (append_nil_l (body ++ newline)).
    now apply strip_surrounding_spaces. }
  rewrite Hstrip. unfold Py.strip.
  split; now apply rstrip_lacks, lstrip_lacks.
Qed.

Lemma function_name_lacks (c : ascii) (fs : FileSystem) (d name line : string) :
  info_file (run_dir fs d) = Ok (Some (Ok line)) ->
  char_in c (Py.strip line) = false ->
  Automate.get_function_name_from_info_file fs d = Ok (Some name) ->
  char_in c name = false.
Proof.
  intros Hinfo Hc.
  unfold Automate.get_function_name_from_info_file, Py.last_item.
  rewrite Hinfo. cbn [and_then].
  destruct (last (Py.split " " (Py.strip line))) as [token|] eqn:E;
    [|discriminate].
  intros [= <-]. apply path_stem_lacks. left.
  refine (last_satisfies (fun part => char_in c part = false) _ token _ E).
  now apply split_parts_lack.
Qed.

(** X15: the demonstration keeps what the extractor sees. When the first
    line of an original [info] file, as [readline] hands it over, yields a
    non-empty name, the extractor returns for the fake directory written
    for that name the same name and the same label as for the original
    directory. *)
Theorem demonstration_preserves_name_and_label
    (fs fs' : FileSystem) (d d' name text : string) :
  info_file (run_dir fs d) = Ok (Some (Ok (readline text))) ->
  Automate.get_function_name_from_info_file fs d = Ok (Some name) ->
  name <> "" ->
  info_file (run_dir fs' d')
  = Ok (Some (Ok (readline (Automate.info_line name
                            ++ "PID: 12345" ++ newline)))) ->
  extract_info_and_label fs' d' = extract_info_and_label fs d /\
  extract_info_and_label fs d = Ok (name, inferred name).
Proof.
  intros Hinfo Hname Hne Hfake.
  destruct (function_name_shape fs d name Hname) as [Hsp Hsl].
  destruct (strip_of_readline_lacks_line_ends text) as [Hlf Hcr].
  pose proof (function_name_lacks "010" fs d name _ Hinfo Hlf Hname) as Hlf'.
  pose proof (function_name_lacks "013" fs d name _ Hinfo Hcr Hname) as Hcr'.
  pose proof (readers_agree_on_any_directory fs d) as Horig.
  rewrite Hname in Horig.
  pose proof (readers_agree_on_any_directory fs' d') as Hfk.
  assert (Hname' : Automate.get_function_name_from_info_file fs' d'
                   = Ok (Some name)).
  { apply (fake_info_names_the_unit fs' d' name); assumption. }
  rewrite Hname' in Hfk. split; [congruence | exact Horig].
Qed.

Lemma demonstration_preserves_name_and_label_sample :
  extract_info_and_label (Demo.fs_fake "CWE190_x_bad") "klee-out-0"
  = extract_info_and_label Demo.fs "klee-out-0" /\
  extract_info_and_label Demo.fs "klee-out-0"
  = Ok ("CWE190_x_bad", inferred "CWE190_x_bad").
Proof.
  exact (demonstration_preserves_name_and_label
           Demo.fs (Demo.fs_fake "CWE190_x_bad") "klee-out-0" "klee-out-0"
           "CWE190_x_bad" "klee --libc=uclibc ../results/CWE190_x_bad.bc"
           eq_refl eq_refl ltac:(discriminate) eq_refl).
Defined.

(** ** Runs are kept apart *)





(** ** Run directories that can be searched *)






